(** * mcp-notes: the notes repository and its search query, verified

    A shallow embedding of [src/db.ts] (class [NotesDB]) and of
    [src/handlers.ts] (class [NotesHandlers]), together with the fragment of
    SQLite the statements of [NotesDB] rely on.

    - The three tables are lists of rows in rowid order.
    - Every method is a computation in a state-and-exception monad over the
      store: a method either returns a value or throws, and a statement that
      throws leaves the store as it was (SQLite aborts the statement).
    - The clock ([new Date().toISOString()]) is an explicit argument [now].
    - Strings are the UTF-8 bytes of the texts, as better-sqlite3 binds
      JavaScript strings; text comparison is SQLite's BINARY collation,
      which compares bytes and is [String.compare]. *)

From Stdlib Require Import List String Ascii ZArith Bool Lia.
From Stdlib Require Import Sorting.Sorted Sorting.Permutation.
Import ListNotations.

(** ** Exceptions and the store monad *)

(** The result codes of the SQLite failures the repository can meet. *)
Inductive SqliteCode : Type :=
| SQLITE_ERROR                  (* the statement does not prepare: syntax error *)
| SQLITE_CONSTRAINT_UNIQUE      (* "UNIQUE constraint failed: ..." *)
| SQLITE_CONSTRAINT_FOREIGNKEY  (* "FOREIGN KEY constraint failed" *)
| SQLITE_MISMATCH.              (* "datatype mismatch" *)

(** [ErrorCode] of the MCP SDK, the two members the handlers use. *)
Inductive ErrorCode : Type :=
| InvalidParams
| InternalError.

(** The texts of the [McpError]s raised by the handlers. *)
Inductive Message : Type :=
| TitleExists                   (* the note title already exists *)
| NoteNotFound (title : string) (* no note with this title *)
| UpdateFailed                  (* updating the note failed *)
| DeleteFailed                  (* deleting the note failed *)
| FolderExists.                 (* the folder name already exists *)

Inductive Error : Type :=
| SqliteError (code : SqliteCode)
| McpError (code : ErrorCode) (message : Message).

Inductive Outcome (A : Type) : Type :=
| Return (a : A)
| Throw (e : Error).

Arguments Return {A} a.
Arguments Throw {A} e.

(** ** Schema: the rows of the three tables *)

(** [priority TEXT CHECK(priority IN ('low', 'medium', 'high'))], typed
    ['low' | 'medium' | 'high'] in [Note]. *)
Inductive Priority : Type := low | medium | high.

Definition priority_text (p : Priority) : string :=
  match p with
  | low => "low"
  | medium => "medium"
  | high => "high"
  end.

Definition priority_eqb (p q : Priority) : bool :=
  match p, q with
  | low, low | medium, medium | high, high => true
  | _, _ => false
  end.

(** A row of table [notes]; [None] is SQL NULL. *)
Module Row.
Record t : Type := make
  { id : Z;
    title : string;
    content : string;
    folder : option string;
    priority : option Priority;
    dueDate : option string;
    createdAt : string;
    updatedAt : string }.
End Row.

(** [interface Note]: the columns and the optional [tags] property. *)
Module Note.
Record t : Type := make
  { row : Row.t;
    tags : option (list string) }.

Definition id (n : t) : Z := Row.id (row n).
Definition title (n : t) : string := Row.title (row n).
Definition content (n : t) : string := Row.content (row n).
Definition folder (n : t) : option string := Row.folder (row n).
Definition priority (n : t) : option Priority := Row.priority (row n).
Definition dueDate (n : t) : option string := Row.dueDate (row n).
Definition createdAt (n : t) : string := Row.createdAt (row n).
Definition updatedAt (n : t) : string := Row.updatedAt (row n).
End Note.

(** [interface Folder], a row of table [folders]. *)
Module Folder.
Record t : Type := make
  { id : Z;
    name : string;
    createdAt : string }.
End Folder.

(** [interface Tag], a row of table [tags]. *)
Module Tag.
Record t : Type := make
  { id : Z;
    name : string;
    noteId : Z }.
End Tag.

(** The database file: each table with its AUTOINCREMENT counter (the
    [sqlite_sequence] entry: the largest rowid the table ever held). *)
Record Store : Type := mkStore
  { notes : list Row.t;
    notes_seq : Z;
    folders : list Folder.t;
    folders_seq : Z;
    tags : list Tag.t;
    tags_seq : Z }.

(** The store after [init] on a new database file. *)
Definition empty_store : Store :=
  {| notes := []; notes_seq := 0;
     folders := []; folders_seq := 0;
     tags := []; tags_seq := 0 |}.

(** A computation against the database. *)
Definition M (A : Type) : Type := Store -> Outcome A * Store.

Definition ret {A} (a : A) : M A := fun s => (Return a, s).

Definition throw {A} (e : Error) : M A := fun s => (Throw e, s).

Definition bind {A B} (m : M A) (k : A -> M B) : M B :=
  fun s =>
    match m s with
    | (Return a, s') => k a s'
    | (Throw e, s') => (Throw e, s')
    end.

(** [try { m } catch (err) { h err }] *)
Definition try_catch {A} (m : M A) (h : Error -> M A) : M A :=
  fun s =>
    match m s with
    | (Return a, s') => (Return a, s')
    | (Throw e, s') => h e s'
    end.

Declare Scope db_scope.
Delimit Scope db_scope with db.
Notation "x <- m ;; k" := (bind m (fun x => k))
  (at level 61, m at next level, right associativity) : db_scope.

(** The value a computation yields and the store it leaves. *)
Definition result {A} (m : M A) (s : Store) : Outcome A := fst (m s).
Definition store_after {A} (m : M A) (s : Store) : Store := snd (m s).

(** ** The SQLite fragment *)

Module Sql.

(** ASCII case folding, the only folding LIKE does by default. *)
Definition fold_case (c : ascii) : ascii :=
  let n := N_of_ascii c in
  if ((65 <=? n) && (n <=? 90))%N then ascii_of_N (n + 32) else c.

(** A byte that continues a UTF-8 character: 10xxxxxx. *)
Definition is_continuation (b : ascii) : bool :=
  let n := N_of_ascii b in
  ((128 <=? n) && (n <? 192))%N.

(** The first byte of a UTF-8 character of several bytes. *)
Definition is_lead (b : ascii) : bool :=
  (192 <=? N_of_ascii b)%N.

(** The text after the continuation bytes it starts with. *)
Fixpoint skip_continuation (t : string) : string :=
  match t with
  | EmptyString => EmptyString
  | String b t' => if is_continuation b then skip_continuation t' else t
  end.

(** [text LIKE pattern], on UTF-8 texts without the NUL character and
    patterns within SQLite's length limit: [%] stands for any run of
    characters, [_] for any one character (the bytes of one UTF-8
    character, so [_] matches nothing in the middle of a character), any
    other character for itself, up to the case of ASCII letters. *)
Fixpoint like (pattern text : string) : bool :=
  match pattern with
  | EmptyString =>
      match text with
      | EmptyString => true
      | String _ _ => false
      end
  | String c pattern' =>
      if Ascii.eqb c "%" then
        (fix any_run (t : string) : bool :=
           like pattern' t
           || match t with
              | EmptyString => false
              | String _ t' => any_run t'
              end) text
      else if Ascii.eqb c "_" then
        match text with
        | EmptyString => false
        | String d text' =>
            negb (is_continuation d)
            && like pattern'
                 (if is_lead d then skip_continuation text' else text')
        end
      else
        match text with
        | EmptyString => false
        | String d text' =>
            Ascii.eqb (fold_case c) (fold_case d) && like pattern' text'
        end
  end.

(** [column LIKE ?] on a nullable column: NULL never satisfies it. *)
Definition like_null (pattern : string) (text : option string) : bool :=
  match text with
  | Some t => like pattern t
  | None => false
  end.

(** [column = ?] on a nullable column, BINARY collation. *)
Definition eq_null (text : option string) (param : string) : bool :=
  match text with
  | Some t => String.eqb t param
  | None => false
  end.

Definition option_eqb {A} (eqb : A -> A -> bool) (x y : option A) : bool :=
  match x, y with
  | Some a, Some b => eqb a b
  | None, None => true
  | _, _ => false
  end.

(** Two rows of [notes] are the same row value (what DISTINCT compares). *)
Definition row_eqb (r r' : Row.t) : bool :=
  (Row.id r =? Row.id r')%Z
  && String.eqb (Row.title r) (Row.title r')
  && String.eqb (Row.content r) (Row.content r')
  && option_eqb String.eqb (Row.folder r) (Row.folder r')
  && option_eqb priority_eqb (Row.priority r) (Row.priority r')
  && option_eqb String.eqb (Row.dueDate r) (Row.dueDate r')
  && String.eqb (Row.createdAt r) (Row.createdAt r')
  && String.eqb (Row.updatedAt r) (Row.updatedAt r').

(** [SELECT DISTINCT n.*]: every row value once, at its first position. *)
Fixpoint distinct (rows : list Row.t) : list Row.t :=
  match rows with
  | [] => []
  | r :: rows' => r :: filter (fun r' => negb (row_eqb r r')) (distinct rows')
  end.

(** [ORDER BY n.updatedAt DESC]: a stable insertion sort, greatest
    [updatedAt] first. SQL leaves the order of rows with equal keys open;
    the model keeps them in scan order. *)
Fixpoint insert_desc (r : Row.t) (sorted : list Row.t) : list Row.t :=
  match sorted with
  | [] => [r]
  | x :: sorted' =>
      if (Row.updatedAt x <=? Row.updatedAt r)%string
      then r :: x :: sorted'
      else x :: insert_desc r sorted'
  end.

Fixpoint order_by_updatedAt_desc (rows : list Row.t) : list Row.t :=
  match rows with
  | [] => []
  | r :: rows' => insert_desc r (order_by_updatedAt_desc rows')
  end.

(** A number bound to LIMIT or OFFSET converts to an integer: it lies
    strictly between the smallest and the largest 64-bit integer. A number
    that does not makes the statement fail with "datatype mismatch". *)
Definition converts_to_integer (n : Z) : bool :=
  ((-9223372036854775808 <? n) && (n <? 9223372036854775807))%Z.

(** [LIMIT ? OFFSET ?] with parameters that convert: a negative limit is
    no upper bound, a negative offset is offset 0. *)
Definition limit_offset {A} (limit offset : Z) (rows : list A) : list A :=
  let rest := skipn (Z.to_nat offset) rows in
  if (limit <? 0)%Z then rest else firstn (Z.to_nat limit) rest.

(** The columns the search conditions name. *)
Inductive Column : Type :=
| n_title
| n_content
| t_name.

(** The conditions of the WHERE clause of the search statement. *)
Inductive Condition : Type :=
| AnyLike (columns : list Column) (pattern : string)
    (* "(" c1 LIKE ? OR ... OR ck LIKE ? ")" *)
| FolderIs (param : string)     (* n.folder = ? *)
| PriorityIs (param : string).  (* n.priority = ? *)

(** The statement [searchNotes] assembles:
    SELECT DISTINCT n.* FROM notes n [LEFT JOIN tags t ON n.id = t.noteId]
    [WHERE c1 AND ... AND ck] ORDER BY n.updatedAt DESC
    [LIMIT ? [OFFSET ?]] *)
Record SelectNotes : Type := mkSelect
  { join_tags : bool;
    conditions : list Condition;
    paging : option (Z * option Z) }.

(** The rows one note contributes to
    [notes n LEFT JOIN tags t ON n.id = t.noteId]: a row per tag of the
    note, or one row with a NULL tag for a note without tags. *)
Definition joined_rows (n : Row.t) (ts : list Tag.t)
  : list (Row.t * option Tag.t) :=
  match filter (fun t => (Row.id n =? Tag.noteId t)%Z) ts with
  | [] => [(n, None)]
  | t :: ts' => map (fun t' => (n, Some t')) (t :: ts')
  end.

Definition left_join_tags (ns : list Row.t) (ts : list Tag.t)
  : list (Row.t * option Tag.t) :=
  flat_map (fun n => joined_rows n ts) ns.

Definition from_clause (join : bool) (s : Store)
  : list (Row.t * option Tag.t) :=
  if join then left_join_tags (notes s) (tags s)
  else map (fun n => (n, None)) (notes s).

Definition column_like (pattern : string) (jr : Row.t * option Tag.t)
  (c : Column) : bool :=
  match c with
  | n_title => like pattern (Row.title (fst jr))
  | n_content => like pattern (Row.content (fst jr))
  | t_name => like_null pattern (option_map Tag.name (snd jr))
  end.

(** A condition is true of a joined row. NULL counts as false: the
    conditions are combined with OR and AND only, never negated. *)
Definition holds (jr : Row.t * option Tag.t) (c : Condition) : bool :=
  match c with
  | AnyLike columns pattern => existsb (column_like pattern jr) columns
  | FolderIs param => eq_null (Row.folder (fst jr)) param
  | PriorityIs param =>
      eq_null (option_map priority_text (Row.priority (fst jr))) param
  end.

Definition is_t_name (c : Column) : bool :=
  match c with
  | t_name => true
  | _ => false
  end.

(** [db.prepare(sql)] accepts the statement: "()" is a syntax error, and
    [t.name] is no column unless [tags t] is joined. *)
Definition prepares (q : SelectNotes) : bool :=
  forallb
    (fun c =>
       match c with
       | AnyLike [] _ => false
       | AnyLike columns _ => join_tags q || negb (existsb is_t_name columns)
       | _ => true
       end)
    (conditions q).

(** The rows before the LIMIT window: joined, filtered, projected on
    [n.*], made distinct and ordered. *)
Definition ordered_rows (q : SelectNotes) (s : Store) : list Row.t :=
  order_by_updatedAt_desc
    (distinct
       (map fst
          (filter (fun jr => forallb (holds jr) (conditions q))
             (from_clause (join_tags q) s)))).

Definition window {A} (p : option (Z * option Z)) (rows : list A) : list A :=
  match p with
  | None => rows
  | Some (limit, None) => limit_offset limit 0 rows
  | Some (limit, Some offset) => limit_offset limit offset rows
  end.

(** The parameters of the LIMIT and OFFSET clauses convert. *)
Definition binds (p : option (Z * option Z)) : bool :=
  match p with
  | None => true
  | Some (limit, None) => converts_to_integer limit
  | Some (limit, Some offset) =>
      converts_to_integer limit && converts_to_integer offset
  end.

(** [db.prepare(sql).all(...params)]: a statement that does not prepare
    is a syntax error; a LIMIT or OFFSET parameter that does not convert
    is a datatype mismatch when the statement runs. *)
Definition all (q : SelectNotes) : M (list Row.t) :=
  fun s =>
    if prepares q
    then
      if binds (paging q)
      then (Return (window (paging q) (ordered_rows q s)), s)
      else (Throw (SqliteError SQLITE_MISMATCH), s)
    else (Throw (SqliteError SQLITE_ERROR), s).

End Sql.

(** ** Arguments of the repository methods *)

(** [Omit<Note, 'id'>], the argument of [createNote]. [None] is a property
    whose value is [undefined], which is bound as NULL; the handler writes
    every key. *)
Module NewNote.
Record t : Type := make
  { title : string;
    content : string;
    folder : option string;
    tags : option (list string);
    priority : option Priority;
    dueDate : option string;
    createdAt : string;
    updatedAt : string }.
End NewNote.

(** [Partial<Note>], the argument of [updateNote]: [Some v] is a key of the
    object with value [v], [None] a key the object does not have. *)
Module Partial.
Record t : Type := make
  { id : option Z;
    title : option string;
    content : option string;
    folder : option string;
    tags : option (list string);
    priority : option Priority;
    dueDate : option string;
    createdAt : option string;
    updatedAt : option string }.
End Partial.

(** ['title' | 'content' | 'tags'] *)
Module SearchField.
Inductive t : Type := title | content | tags.
End SearchField.

(** ['createdAt' | 'updatedAt' | 'dueDate'] *)
Module SortField.
Inductive t : Type := createdAt | updatedAt | dueDate.
End SortField.

(** ['asc' | 'desc'] *)
Module SortOrder.
Inductive t : Type := asc | desc.
End SortOrder.

(** [interface SearchOptions]. [NotesDB.searchNotes] declares an argument
    type with fewer properties; the handler passes it this object. The
    numbers [limit] and [offset] are integers. *)
Module SearchOptions.
Record t : Type := make
  { query : string;
    searchIn : option (list SearchField.t);
    folder : option string;
    priority : option string;
    hasDueDate : option bool;
    sortBy : option SortField.t;
    sortOrder : option SortOrder.t;
    limit : option Z;
    offset : option Z }.
End SearchOptions.

(** JavaScript truthiness of an optional string: [undefined] and [''] are
    falsy. *)
Definition truthy_string (x : option string) : option string :=
  match x with
  | Some EmptyString => None
  | other => other
  end.

(** JavaScript truthiness of an optional (integer) number: [undefined] and
    [0] are falsy. *)
Definition truthy_number (x : option Z) : option Z :=
  match x with
  | Some 0%Z => None
  | other => other
  end.

(** ** class NotesDB *)

Module NotesDB.

Import Sql.
Local Open Scope db_scope.

Fixpoint mapM {A B} (f : A -> M B) (l : list A) : M (list B) :=
  match l with
  | [] => ret []
  | a :: l' => b <- f a ;; bs <- mapM f l' ;; ret (b :: bs)
  end.

(** [createNote]: INSERT INTO notes (title, ..., updatedAt) VALUES (...).
    [title TEXT UNIQUE NOT NULL] rejects a title the table already holds;
    the new rowid is the AUTOINCREMENT counter plus one. *)
Definition createNote (note : NewNote.t) : M Note.t :=
  fun s =>
    if existsb (fun r => String.eqb (Row.title r) (NewNote.title note))
         (notes s)
    then (Throw (SqliteError SQLITE_CONSTRAINT_UNIQUE), s)
    else
      let lastInsertRowid := (notes_seq s + 1)%Z in
      let r :=
        {| Row.id := lastInsertRowid;
           Row.title := NewNote.title note;
           Row.content := NewNote.content note;
           Row.folder := NewNote.folder note;
           Row.priority := NewNote.priority note;
           Row.dueDate := NewNote.dueDate note;
           Row.createdAt := NewNote.createdAt note;
           Row.updatedAt := NewNote.updatedAt note |} in
      (Return {| Note.row := r; Note.tags := NewNote.tags note |},
       {| notes := notes s ++ [r];
          notes_seq := lastInsertRowid;
          folders := folders s;
          folders_seq := folders_seq s;
          tags := tags s;
          tags_seq := tags_seq s |}).

(** [getNoteTags]: SELECT name FROM tags WHERE noteId = ? *)
Definition getNoteTags (noteId : Z) : M (list string) :=
  fun s =>
    (Return
       (map Tag.name
          (filter (fun t => (Tag.noteId t =? noteId)%Z) (tags s))),
     s).

(** [if (note) { note.tags = this.getNoteTags(note.id) } return note] *)
Definition with_tags (found : option Row.t) : M (option Note.t) :=
  match found with
  | Some r =>
      names <- getNoteTags (Row.id r) ;;
      ret (Some {| Note.row := r; Note.tags := Some names |})
  | None => ret None
  end.

(** [getNote]: SELECT * FROM notes WHERE id = ? *)
Definition getNote (id : Z) : M (option Note.t) :=
  found <- (fun s =>
              (Return (find (fun r => (Row.id r =? id)%Z) (notes s)), s)) ;;
  with_tags found.

(** [getNoteByTitle]: SELECT * FROM notes WHERE title = ? *)
Definition getNoteByTitle (title : string) : M (option Note.t) :=
  found <- (fun s =>
              (Return (find (fun r => String.eqb (Row.title r) title)
                         (notes s)), s)) ;;
  with_tags found.

Definition or_else {A} (x : option A) (d : A) : A :=
  match x with
  | Some a => a
  | None => d
  end.

Definition is_some {A} (x : option A) : bool :=
  match x with
  | Some _ => true
  | None => false
  end.

(** The SET clause of [updateNote] names a column: the keys of [updates]
    other than [id] and [tags]. *)
Definition has_sets (updates : Partial.t) : bool :=
  is_some (Partial.title updates)
  || is_some (Partial.content updates)
  || is_some (Partial.folder updates)
  || is_some (Partial.priority updates)
  || is_some (Partial.dueDate updates)
  || is_some (Partial.createdAt updates)
  || is_some (Partial.updatedAt updates).

(** One row under [SET key = @key, ...]. *)
Definition set_columns (updates : Partial.t) (r : Row.t) : Row.t :=
  {| Row.id := Row.id r;
     Row.title := or_else (Partial.title updates) (Row.title r);
     Row.content := or_else (Partial.content updates) (Row.content r);
     Row.folder :=
       match Partial.folder updates with
       | Some f => Some f
       | None => Row.folder r
       end;
     Row.priority :=
       match Partial.priority updates with
       | Some p => Some p
       | None => Row.priority r
       end;
     Row.dueDate :=
       match Partial.dueDate updates with
       | Some d => Some d
       | None => Row.dueDate r
       end;
     Row.createdAt := or_else (Partial.createdAt updates) (Row.createdAt r);
     Row.updatedAt := or_else (Partial.updatedAt updates) (Row.updatedAt r) |}.

(** [updateNote]: UPDATE notes SET ${sets} WHERE id = @id. An empty SET
    clause does not prepare; a new title must not be the title of another
    row. *)
Definition updateNote (id : Z) (updates : Partial.t) : M bool :=
  fun s =>
    if negb (has_sets updates)
    then (Throw (SqliteError SQLITE_ERROR), s)
    else
      let hit := fun r => (Row.id r =? id)%Z in
      let changes := List.length (filter hit (notes s)) in
      let title_taken :=
        match Partial.title updates with
        | Some t =>
            (1 <? changes)%nat
            || existsb (fun r => negb (hit r) && String.eqb (Row.title r) t)
                 (notes s)
        | None => false
        end in
      if (changes =? 0)%nat then (Return false, s)
      else if title_taken
      then (Throw (SqliteError SQLITE_CONSTRAINT_UNIQUE), s)
      else
        (Return true,
         {| notes :=
              map (fun r => if hit r then set_columns updates r else r)
                (notes s);
            notes_seq := notes_seq s;
            folders := folders s;
            folders_seq := folders_seq s;
            tags := tags s;
            tags_seq := tags_seq s |}).

(** [deleteNote]: DELETE FROM notes WHERE id = ?. With
    [PRAGMA foreign_keys = ON], [ON DELETE CASCADE] deletes the tag rows
    of a deleted note in the same statement. *)
Definition deleteNote (id : Z) : M bool :=
  fun s =>
    let hit := fun r => (Row.id r =? id)%Z in
    let changes := List.length (filter hit (notes s)) in
    if (changes =? 0)%nat then (Return false, s)
    else
      (Return true,
       {| notes := filter (fun r => negb (hit r)) (notes s);
          notes_seq := notes_seq s;
          folders := folders s;
          folders_seq := folders_seq s;
          tags := filter (fun t => negb (Tag.noteId t =? id)%Z) (tags s);
          tags_seq := tags_seq s |}).

(** [addTag]: INSERT OR IGNORE INTO tags (name, noteId) VALUES (?, ?).
    A row that conflicts with [UNIQUE(name, noteId)] is skipped, after
    the AUTOINCREMENT counter has given out its rowid: the counter
    advances, no row is written. A row whose [noteId] is no note violates
    the foreign key, and the statement is undone. *)
Definition addTag (noteId : Z) (tag : string) : M unit :=
  fun s =>
    if existsb
         (fun t => String.eqb (Tag.name t) tag && (Tag.noteId t =? noteId)%Z)
         (tags s)
    then
      (Return tt,
       {| notes := notes s;
          notes_seq := notes_seq s;
          folders := folders s;
          folders_seq := folders_seq s;
          tags := tags s;
          tags_seq := (tags_seq s + 1)%Z |})
    else if existsb (fun r => (Row.id r =? noteId)%Z) (notes s)
    then
      (Return tt,
       {| notes := notes s;
          notes_seq := notes_seq s;
          folders := folders s;
          folders_seq := folders_seq s;
          tags :=
            tags s
            ++ [{| Tag.id := (tags_seq s + 1)%Z;
                   Tag.name := tag;
                   Tag.noteId := noteId |}];
          tags_seq := (tags_seq s + 1)%Z |})
    else (Throw (SqliteError SQLITE_CONSTRAINT_FOREIGNKEY), s).

(** [removeTags]: DELETE FROM tags WHERE noteId = ? AND name IN (?,...,?).
    SQLite accepts the empty list [IN ()], which no row satisfies. *)
Definition removeTags (noteId : Z) (names : list string) : M unit :=
  fun s =>
    (Return tt,
     {| notes := notes s;
        notes_seq := notes_seq s;
        folders := folders s;
        folders_seq := folders_seq s;
        tags :=
          filter
            (fun t =>
               negb ((Tag.noteId t =? noteId)%Z
                     && existsb (String.eqb (Tag.name t)) names))
            (tags s);
        tags_seq := tags_seq s |}).

(** [createFolder]: INSERT INTO folders (name, createdAt) VALUES (?, ?) *)
Definition createFolder (now : string) (name : string) : M Folder.t :=
  fun s =>
    if existsb (fun f => String.eqb (Folder.name f) name) (folders s)
    then (Throw (SqliteError SQLITE_CONSTRAINT_UNIQUE), s)
    else
      let f :=
        {| Folder.id := (folders_seq s + 1)%Z;
           Folder.name := name;
           Folder.createdAt := now |} in
      (Return f,
       {| notes := notes s;
          notes_seq := notes_seq s;
          folders := folders s ++ [f];
          folders_seq := (folders_seq s + 1)%Z;
          tags := tags s;
          tags_seq := tags_seq s |}).

Definition column_of (field : SearchField.t) : Column :=
  match field with
  | SearchField.title => n_title
  | SearchField.content => n_content
  | SearchField.tags => t_name
  end.

Definition is_tags (field : SearchField.t) : bool :=
  match field with
  | SearchField.tags => true
  | _ => false
  end.

(** The statement [searchNotes] builds from its options. *)
Definition search_statement (options : SearchOptions.t) : SelectNotes :=
  let join :=
    match SearchOptions.searchIn options with
    | Some fields => existsb is_tags fields
    | None => false
    end in
  let text :=
    match truthy_string (Some (SearchOptions.query options)) with
    | Some query =>
        let searchFields :=
          or_else (SearchOptions.searchIn options)
            [SearchField.title; SearchField.content] in
        [AnyLike (map column_of searchFields) ("%" ++ query ++ "%")]
    | None => []
    end in
  let in_folder :=
    match truthy_string (SearchOptions.folder options) with
    | Some f => [FolderIs f]
    | None => []
    end in
  let with_priority :=
    match truthy_string (SearchOptions.priority options) with
    | Some p => [PriorityIs p]
    | None => []
    end in
  let page :=
    match truthy_number (SearchOptions.limit options) with
    | Some limit => Some (limit, truthy_number (SearchOptions.offset options))
    | None => None
    end in
  {| join_tags := join;
     conditions := text ++ in_folder ++ with_priority;
     paging := page |}.

(** [searchNotes]: run the statement, then attach to every returned row
    its tag names. *)
Definition searchNotes (options : SearchOptions.t) : M (list Note.t) :=
  rows <- all (search_statement options) ;;
  mapM
    (fun r =>
       names <- getNoteTags (Row.id r) ;;
       ret {| Note.row := r; Note.tags := Some names |})
    rows.

End NotesDB.

(** ** class NotesHandlers *)

(** The text a handler answers with. *)
Inductive Response : Type :=
| NoteCreated (title : string)
| NotesJson (notes : list Note.t)    (* JSON.stringify(notes, null, 2) *)
| NoteJson (note : Note.t)           (* JSON.stringify(note, null, 2) *)
| NoteUpdated (title : string)
| NoteDeleted (title : string)
| TagsAdded (title : string) (tags : list string)
| TagsRemoved (title : string) (tags : list string)
| FolderCreated (name : string).

Module CreateNoteArgs.
Record t : Type := make
  { title : string;
    content : string;
    folder : option string;
    priority : option Priority;
    dueDate : option string }.
End CreateNoteArgs.

Module GetNotesArgs.
Record t : Type := make
  { folder : option string;
    limit : option Z;
    offset : option Z }.
End GetNotesArgs.

Module UpdateNoteArgs.
Record t : Type := make
  { title : string;
    content : option string;
    folder : option string;
    priority : option Priority;
    dueDate : option string }.
End UpdateNoteArgs.

Module TagsArgs.
Record t : Type := make
  { title : string;
    tags : list string }.
End TagsArgs.

Module NotesHandlers.

Local Open Scope db_scope.

(** [err.message.includes('UNIQUE constraint failed')] *)
Definition is_unique_failure (err : Error) : bool :=
  match err with
  | SqliteError SQLITE_CONSTRAINT_UNIQUE => true
  | _ => false
  end.

Definition createNote (now : string) (args : CreateNoteArgs.t) : M Response :=
  try_catch
    (note <- NotesDB.createNote
               {| NewNote.title := CreateNoteArgs.title args;
                  NewNote.content := CreateNoteArgs.content args;
                  NewNote.folder := CreateNoteArgs.folder args;
                  NewNote.tags := None;
                  NewNote.priority := CreateNoteArgs.priority args;
                  NewNote.dueDate := CreateNoteArgs.dueDate args;
                  NewNote.createdAt := now;
                  NewNote.updatedAt := now |} ;;
     ret (NoteCreated (Note.title note)))
    (fun err =>
       if is_unique_failure err
       then throw (McpError InvalidParams TitleExists)
       else throw err).

Definition getNotes (args : GetNotesArgs.t) : M Response :=
  notes <- NotesDB.searchNotes
             {| SearchOptions.query := "";
                SearchOptions.searchIn := None;
                SearchOptions.folder := GetNotesArgs.folder args;
                SearchOptions.priority := None;
                SearchOptions.hasDueDate := None;
                SearchOptions.sortBy := None;
                SearchOptions.sortOrder := None;
                SearchOptions.limit := GetNotesArgs.limit args;
                SearchOptions.offset := GetNotesArgs.offset args |} ;;
  ret (NotesJson notes).

(** [const note = this.db.getNoteByTitle(title); if (!note) throw ...] *)
Definition note_titled (title : string) : M Note.t :=
  found <- NotesDB.getNoteByTitle title ;;
  match found with
  | Some note => ret note
  | None => throw (McpError InvalidParams (NoteNotFound title))
  end.

Definition getNote (title : string) : M Response :=
  note <- note_titled title ;;
  ret (NoteJson note).

Definition updateNote (now : string) (args : UpdateNoteArgs.t) : M Response :=
  note <- note_titled (UpdateNoteArgs.title args) ;;
  let updates :=
    {| Partial.id := None;
       Partial.title := None;
       Partial.content := UpdateNoteArgs.content args;
       Partial.folder := UpdateNoteArgs.folder args;
       Partial.tags := None;
       Partial.priority := UpdateNoteArgs.priority args;
       Partial.dueDate := UpdateNoteArgs.dueDate args;
       Partial.createdAt := None;
       Partial.updatedAt := Some now |} in
  success <- NotesDB.updateNote (Note.id note) updates ;;
  if success : bool
  then ret (NoteUpdated (UpdateNoteArgs.title args))
  else throw (McpError InternalError UpdateFailed).

Definition deleteNote (title : string) : M Response :=
  note <- note_titled title ;;
  success <- NotesDB.deleteNote (Note.id note) ;;
  if success : bool
  then ret (NoteDeleted title)
  else throw (McpError InternalError DeleteFailed).

Definition searchNotes (args : SearchOptions.t) : M Response :=
  notes <- NotesDB.searchNotes args ;;
  ret (NotesJson notes).

(** [for (const tag of args.tags) { this.db.addTag(note.id, tag) }] *)
Fixpoint add_each (noteId : Z) (tags : list string) : M unit :=
  match tags with
  | [] => ret tt
  | tag :: tags' => _ <- NotesDB.addTag noteId tag ;; add_each noteId tags'
  end.

Definition addTags (args : TagsArgs.t) : M Response :=
  note <- note_titled (TagsArgs.title args) ;;
  _ <- add_each (Note.id note) (TagsArgs.tags args) ;;
  ret (TagsAdded (TagsArgs.title args) (TagsArgs.tags args)).

Definition removeTags (args : TagsArgs.t) : M Response :=
  note <- note_titled (TagsArgs.title args) ;;
  _ <- NotesDB.removeTags (Note.id note) (TagsArgs.tags args) ;;
  ret (TagsRemoved (TagsArgs.title args) (TagsArgs.tags args)).

Definition createFolder (now : string) (name : string) : M Response :=
  try_catch
    (folder <- NotesDB.createFolder now name ;;
     ret (FolderCreated (Folder.name folder)))
    (fun err =>
       if is_unique_failure err
       then throw (McpError InvalidParams FolderExists)
       else throw err).

End NotesHandlers.

(** ** Reachable stores *)

(** A call of a method of [NotesDB] that can write. *)
Inductive Call : Type :=
| CreateNote (note : NewNote.t)
| UpdateNote (id : Z) (updates : Partial.t)
| DeleteNote (id : Z)
| AddTag (noteId : Z) (tag : string)
| RemoveTags (noteId : Z) (names : list string)
| CreateFolder (now : string) (name : string).

(** The store a call leaves, whether it returns or throws. *)
Definition call (c : Call) (s : Store) : Store :=
  match c with
  | CreateNote note => store_after (NotesDB.createNote note) s
  | UpdateNote id updates => store_after (NotesDB.updateNote id updates) s
  | DeleteNote id => store_after (NotesDB.deleteNote id) s
  | AddTag noteId tag => store_after (NotesDB.addTag noteId tag) s
  | RemoveTags noteId names => store_after (NotesDB.removeTags noteId names) s
  | CreateFolder now name => store_after (NotesDB.createFolder now name) s
  end.

(** The stores the repository can reach from a new database file. *)
Inductive reachable : Store -> Prop :=
| reachable_init : reachable empty_store
| reachable_call (c : Call) (s : Store) :
    reachable s -> reachable (call c s).

(** The constraints of the schema, as an invariant of the store:
    the primary key and [UNIQUE(title)] of [notes], rowids within the
    AUTOINCREMENT counter, [UNIQUE(name, noteId)] and the foreign key of
    [tags]. *)
Record consistent (s : Store) : Prop := mkConsistent
  { note_ids_unique : NoDup (map Row.id (notes s));
    note_titles_unique : NoDup (map Row.title (notes s));
    note_ids_issued :
      forall r, In r (notes s) -> (Row.id r <= notes_seq s)%Z;
    tag_pairs_unique :
      NoDup (map (fun t => (Tag.name t, Tag.noteId t)) (tags s));
    tags_reference_notes :
      forall t, In t (tags s) ->
                exists r, In r (notes s) /\ Row.id r = Tag.noteId t }.

(** The tags attached to a returned row: [{...note, tags: getNoteTags(id)}]. *)
Definition attach_tags (s : Store) (r : Row.t) : Note.t :=
  {| Note.row := r;
     Note.tags :=
       Some (map Tag.name
               (filter (fun t => (Tag.noteId t =? Row.id r)%Z) (tags s))) |}.


(** [updatedAt] does not increase from a row to the next. *)
Definition newer_first (r r' : Row.t) : Prop :=
  (Row.updatedAt r' <=? Row.updatedAt r)%string = true.

(** A request whose statement prepares: it does not search a text in an
    empty list of fields ([WHERE ()] is a syntax error). *)
Definition requestable (options : SearchOptions.t) : Prop :=
  SearchOptions.query options = EmptyString
  \/ SearchOptions.searchIn options <> Some [].

(** Two search requests that differ at most in [hasDueDate]. *)
Definition same_but_hasDueDate (o1 o2 : SearchOptions.t) : Prop :=
  SearchOptions.query o1 = SearchOptions.query o2
  /\ SearchOptions.searchIn o1 = SearchOptions.searchIn o2
  /\ SearchOptions.folder o1 = SearchOptions.folder o2
  /\ SearchOptions.priority o1 = SearchOptions.priority o2
  /\ SearchOptions.sortBy o1 = SearchOptions.sortBy o2
  /\ SearchOptions.sortOrder o1 = SearchOptions.sortOrder o2
  /\ SearchOptions.limit o1 = SearchOptions.limit o2
  /\ SearchOptions.offset o1 = SearchOptions.offset o2.

(** ** A small database, used to run the methods on concrete input *)

Definition groceries : NewNote.t :=
  {| NewNote.title := "Groceries";
     NewNote.content := "buy milk";
     NewNote.folder := Some "home"%string;
     NewNote.tags := None;
     NewNote.priority := Some high;
     NewNote.dueDate := None;
     NewNote.createdAt := "2024-01-01T10:00:00.000Z";
     NewNote.updatedAt := "2024-01-01T10:00:00.000Z" |}.

Definition groceries2 : NewNote.t :=
  {| NewNote.title := "Groceries2";
     NewNote.content := "buy milk too";
     NewNote.folder := Some "work"%string;
     NewNote.tags := None;
     NewNote.priority := None;
     NewNote.dueDate := Some "2024-02-01"%string;
     NewNote.createdAt := "2024-01-02T10:00:00.000Z";
     NewNote.updatedAt := "2024-01-02T10:00:00.000Z" |}.

(** Both notes created, then the first one tagged ["a"] and ["ab"]. *)
Definition two_notes : Store :=
  call (AddTag 1 "ab")
    (call (AddTag 1 "a")
       (call (CreateNote groceries2)
          (call (CreateNote groceries) empty_store))).

(** The row of "Groceries" in the small database. *)
Definition groceries_row : Row.t :=
  {| Row.id := 1;
     Row.title := "Groceries";
     Row.content := "buy milk";
     Row.folder := Some "home"%string;
     Row.priority := Some high;
     Row.dueDate := None;
     Row.createdAt := "2024-01-01T10:00:00.000Z";
     Row.updatedAt := "2024-01-01T10:00:00.000Z" |}.

(** A search for [query] with every option left out. *)
Definition search_for (query : string) : SearchOptions.t :=
  {| SearchOptions.query := query;
     SearchOptions.searchIn := None;
     SearchOptions.folder := None;
     SearchOptions.priority := None;
     SearchOptions.hasDueDate := None;
     SearchOptions.sortBy := None;
     SearchOptions.sortOrder := None;
     SearchOptions.limit := None;
     SearchOptions.offset := None |}.

(** The rows of [tags] owned by a note. *)
Definition tag_rows_of (noteId : Z) (s : Store) : list Tag.t :=
  filter (fun t => (Tag.noteId t =? noteId)%Z) (tags s).


(** A search for ["a"] in the tags: both tags of the first note match. *)
Definition search_tags_a : SearchOptions.t :=
  {| SearchOptions.query := "a";
     SearchOptions.searchIn := Some [SearchField.tags];
     SearchOptions.folder := None;
     SearchOptions.priority := None;
     SearchOptions.hasDueDate := None;
     SearchOptions.sortBy := None;
     SearchOptions.sortOrder := None;
     SearchOptions.limit := Some 5%Z;
     SearchOptions.offset := None |}.


(** The same request with another [offset]. *)
Definition set_offset (offset : option Z) (o : SearchOptions.t)
  : SearchOptions.t :=
  {| SearchOptions.query := SearchOptions.query o;
     SearchOptions.searchIn := SearchOptions.searchIn o;
     SearchOptions.folder := SearchOptions.folder o;
     SearchOptions.priority := SearchOptions.priority o;
     SearchOptions.hasDueDate := SearchOptions.hasDueDate o;
     SearchOptions.sortBy := SearchOptions.sortBy o;
     SearchOptions.sortOrder := SearchOptions.sortOrder o;
     SearchOptions.limit := SearchOptions.limit o;
     SearchOptions.offset := offset |}.



(** A search for ["milk"] that asks for the oldest [updatedAt] first. *)
Definition oldest_first : SearchOptions.t :=
  {| SearchOptions.query := "milk";
     SearchOptions.searchIn := Some [SearchField.content];
     SearchOptions.folder := None;
     SearchOptions.priority := None;
     SearchOptions.hasDueDate := None;
     SearchOptions.sortBy := Some SortField.updatedAt;
     SearchOptions.sortOrder := Some SortOrder.asc;
     SearchOptions.limit := None;
     SearchOptions.offset := None |}.

(** ** The order the search interface lets a client ask for *)

(** The value a note is sorted by; NULL sorts before every text. *)
Definition sort_key (field : SortField.t) (n : Note.t) : option string :=
  match field with
  | SortField.createdAt => Some (Note.createdAt n)
  | SortField.updatedAt => Some (Note.updatedAt n)
  | SortField.dueDate => Note.dueDate n
  end.

Definition key_leb (x y : option string) : bool :=
  match x, y with
  | None, _ => true
  | Some _, None => false
  | Some a, Some b => String.leb a b
  end.

(** The notes are in the order [sortBy] / [sortOrder] ask for, with the
    defaults [updatedAt] and [desc]. *)
Definition in_requested_order (sortBy : option SortField.t)
  (sortOrder : option SortOrder.t) (found : list Note.t) : Prop :=
  let field := NotesDB.or_else sortBy SortField.updatedAt in
  Sorted
    (fun a b =>
       match NotesDB.or_else sortOrder SortOrder.desc with
       | SortOrder.asc => key_leb (sort_key field a) (sort_key field b) = true
       | SortOrder.desc => key_leb (sort_key field b) (sort_key field a) = true
       end)
    found.

(** Two search requests that differ at most in [sortBy] and [sortOrder]. *)
Definition same_but_sort (o1 o2 : SearchOptions.t) : Prop :=
  SearchOptions.query o1 = SearchOptions.query o2
  /\ SearchOptions.searchIn o1 = SearchOptions.searchIn o2
  /\ SearchOptions.folder o1 = SearchOptions.folder o2
  /\ SearchOptions.priority o1 = SearchOptions.priority o2
  /\ SearchOptions.hasDueDate o1 = SearchOptions.hasDueDate o2
  /\ SearchOptions.limit o1 = SearchOptions.limit o2
  /\ SearchOptions.offset o1 = SearchOptions.offset o2.

(** The second page of one note of the search for ["milk"]. *)
Definition second_page : SearchOptions.t :=
  {| SearchOptions.query := "milk";
     SearchOptions.searchIn := None;
     SearchOptions.folder := None;
     SearchOptions.priority := None;
     SearchOptions.hasDueDate := None;
     SearchOptions.sortBy := None;
     SearchOptions.sortOrder := None;
     SearchOptions.limit := Some 1%Z;
     SearchOptions.offset := Some 1%Z |}.

(** An update of the content of "Groceries" only. *)
Definition new_content : UpdateNoteArgs.t :=
  {| UpdateNoteArgs.title := "Groceries";
     UpdateNoteArgs.content := Some "buy oat milk"%string;
     UpdateNoteArgs.folder := None;
     UpdateNoteArgs.priority := None;
     UpdateNoteArgs.dueDate := None |}.

(** The value of an optional column after an update. *)
Definition overwritten {A} (supplied : option A) (previous : option A)
  : option A :=
  match supplied with
  | Some v => Some v
  | None => previous
  end.

(** ** Notions used to state what the other methods do *)

(** The tag names [getNoteTags] reads for a note. *)
Definition tag_names (noteId : Z) (s : Store) : list string :=
  map Tag.name (tag_rows_of noteId s).

(** The rows of [tags] that hold the pair (name, noteId). *)
Definition tag_pair_rows (name : string) (noteId : Z) (s : Store)
  : list Tag.t :=
  filter
    (fun t => String.eqb (Tag.name t) name && (Tag.noteId t =? noteId)%Z)
    (tags s).

(** The constraints of table [folders]: [UNIQUE(name)], the primary key,
    rowids within the AUTOINCREMENT counter. *)
Definition folders_consistent (s : Store) : Prop :=
  NoDup (map Folder.name (folders s))
  /\ NoDup (map Folder.id (folders s))
  /\ forall f, In f (folders s) -> (Folder.id f <= folders_seq s)%Z.


(** The same request with another [limit] and [offset]. *)
Definition set_page (limit offset : option Z) (o : SearchOptions.t)
  : SearchOptions.t :=
  {| SearchOptions.query := SearchOptions.query o;
     SearchOptions.searchIn := SearchOptions.searchIn o;
     SearchOptions.folder := SearchOptions.folder o;
     SearchOptions.priority := SearchOptions.priority o;
     SearchOptions.hasDueDate := SearchOptions.hasDueDate o;
     SearchOptions.sortBy := SearchOptions.sortBy o;
     SearchOptions.sortOrder := SearchOptions.sortOrder o;
     SearchOptions.limit := limit;
     SearchOptions.offset := offset |}.

(** A text column of [notes] a search field names; [tags] names none. *)
Definition field_text (field : SearchField.t) (r : Row.t) : option string :=
  match field with
  | SearchField.title => Some (Row.title r)
  | SearchField.content => Some (Row.content r)
  | SearchField.tags => None
  end.



(** The store after a list of calls, the first call first. *)
Definition calls (cs : list Call) (s : Store) : Store :=
  fold_left (fun s' c => call c s') cs s.

(** ** Preconditions of a search that returns *)









(** * Facts about lists *)

Section ListFacts.

Context {A B : Type}.
Variable f : A -> B.

Lemma NoDup_map_filter (p : A -> bool) (l : list A) :
  NoDup (map f l) -> NoDup (map f (filter p l)).
Proof.
  induction l as [|a l IH]; simpl; intros H; [constructor|].
  inversion H as [|? ? Hnotin Hnd]; subst.
  destruct (p a); simpl; auto.
  constructor; auto.
  intros Hin. apply Hnotin.
  apply in_map_iff in Hin as [x [Hx Hin]].
  apply filter_In in Hin as [Hin _].
  apply in_map_iff. now exists x.
Qed.

Lemma NoDup_map_injective_on (l : list A) :
  NoDup (map f l) ->
  forall x y, In x l -> In y l -> f x = f y -> x = y.
Proof.
  induction l as [|a l IH]; simpl; intros H x y Hx Hy Hxy; [contradiction|].
  inversion H as [|? ? Hnotin Hnd]; subst.
  destruct Hx as [-> | Hx], Hy as [-> | Hy]; auto.
  - exfalso. apply Hnotin. rewrite Hxy. now apply in_map.
  - exfalso. apply Hnotin. rewrite <- Hxy. now apply in_map.
Qed.


End ListFacts.





Lemma Sorted_firstn {A} (R : A -> A -> Prop) (n : nat) (l : list A) :
  Sorted R l -> Sorted R (firstn n l).
Proof.
  revert n. induction l as [|a l IH]; intros [|n] H; simpl;
    try constructor.
  - inversion H; subst. auto.
  - inversion H as [|? ? Hs Hhd]; subst.
    destruct l as [|b l]; destruct n as [|n]; simpl; try constructor.
    now inversion Hhd.
Qed.

Lemma Sorted_skipn {A} (R : A -> A -> Prop) (n : nat) (l : list A) :
  Sorted R l -> Sorted R (skipn n l).
Proof.
  revert n. induction l as [|a l IH]; intros [|n] H; simpl; auto.
  inversion H; subst. auto.
Qed.

(** * Facts about the SQLite fragment *)

Module SqlFacts.

Import Sql.










Lemma insert_desc_sorted (r : Row.t) (l : list Row.t) :
  Sorted newer_first l -> Sorted newer_first (insert_desc r l).
Proof.
  induction l as [|x l IH]; simpl; intros H.
  - repeat constructor.
  - destruct (Row.updatedAt x <=? Row.updatedAt r)%string eqn:E.
    + constructor; auto.
    + inversion H as [|? ? Hs Hhd]; subst.
      constructor; auto.
      assert (Hrx : newer_first x r).
      { unfold newer_first.
        destruct (String.leb_total (Row.updatedAt x) (Row.updatedAt r));
          congruence. }
      destruct l as [|y l]; simpl.
      * now constructor.
      * destruct (Row.updatedAt y <=? Row.updatedAt r)%string;
          constructor; auto.
        now inversion Hhd.
Qed.

Lemma order_sorted (rows : list Row.t) :
  Sorted newer_first (order_by_updatedAt_desc rows).
Proof.
  induction rows as [|r rows IH]; simpl; [constructor|].
  now apply insert_desc_sorted.
Qed.





Lemma window_sorted {A} (R : A -> A -> Prop) (p : option (Z * option Z))
  (rows : list A) :
  Sorted R rows -> Sorted R (window p rows).
Proof.
  intros H.
  destruct p as [[limit [offset|]]|]; simpl; auto; unfold limit_offset;
    destruct (limit <? 0)%Z; auto using Sorted_firstn, Sorted_skipn.
Qed.

Lemma window_map {A B} (g : A -> B) (p : option (Z * option Z))
  (rows : list A) :
  window p (map g rows) = map g (window p rows).
Proof.
  destruct p as [[limit [offset|]]|]; simpl; auto; unfold limit_offset;
    destruct (limit <? 0)%Z;
    now rewrite ?skipn_map, ?firstn_map.
Qed.

End SqlFacts.

(** * Facts about the repository *)

Module DbFacts.

Import Sql SqlFacts.

Lemma getNoteTags_run (noteId : Z) (s : Store) :
  NotesDB.getNoteTags noteId s
  = (Return (map Tag.name
               (filter (fun t => (Tag.noteId t =? noteId)%Z) (tags s))), s).
Proof. reflexivity. Qed.

Lemma attach_each (rows : list Row.t) (s : Store) :
  NotesDB.mapM
    (fun r =>
       bind (NotesDB.getNoteTags (Row.id r))
         (fun names => ret {| Note.row := r; Note.tags := Some names |}))
    rows s
  = (Return (map (attach_tags s) rows), s).
Proof.
  induction rows as [|r rows IH]; simpl; [reflexivity|].
  unfold bind at 1. unfold bind at 1. simpl.
  unfold bind at 1. rewrite IH. reflexivity.
Qed.

(** [searchNotes] throws when the statement does not prepare or a
    parameter does not bind, and otherwise returns the window of the
    ordered rows, tags attached, leaving the store as it was. *)
Lemma searchNotes_run (options : SearchOptions.t) (s : Store) :
  NotesDB.searchNotes options s
  = let q := NotesDB.search_statement options in
    if prepares q
    then
      if binds (paging q)
      then
        (Return (map (attach_tags s) (window (paging q) (ordered_rows q s))),
         s)
      else (Throw (SqliteError SQLITE_MISMATCH), s)
    else (Throw (SqliteError SQLITE_ERROR), s).
Proof.
  unfold NotesDB.searchNotes, bind at 1, all. cbv zeta.
  destruct (prepares (NotesDB.search_statement options)); [|reflexivity].
  destruct (binds (paging (NotesDB.search_statement options)));
    [|reflexivity].
  apply attach_each.
Qed.



Lemma binds_limit (limit : Z) (offset : option Z) :
  binds (Some (limit, offset))
  = converts_to_integer limit
    && match offset with
       | Some k => converts_to_integer k
       | None => true
       end.
Proof. destruct offset; cbn [binds]; now rewrite ?andb_true_r. Qed.



Lemma t_name_is_tags (fields : list SearchField.t) :
  existsb is_t_name (map NotesDB.column_of fields)
  = existsb NotesDB.is_tags fields.
Proof.
  induction fields as [|[] fields IH]; simpl; auto.
Qed.

Lemma truthy_string_conditions_prepare {A} (x : option A)
  (c : A -> Condition) (join : bool) :
  (forall a, match c a with AnyLike _ _ => False | _ => True end) ->
  forallb
    (fun c =>
       match c with
       | AnyLike [] _ => false
       | AnyLike columns _ => join || negb (existsb is_t_name columns)
       | _ => true
       end)
    match x with Some a => [c a] | None => [] end = true.
Proof.
  intros H. destruct x as [a|]; simpl; [|reflexivity].
  specialize (H a). destruct (c a); simpl; tauto.
Qed.

(** The search statement prepares unless a text is searched in an empty
    list of fields. *)
Lemma search_statement_prepares (options : SearchOptions.t) :
  requestable options ->
  prepares (NotesDB.search_statement options) = true.
Proof.
  unfold requestable, prepares, NotesDB.search_statement. simpl.
  intros H. rewrite !forallb_app.
  rewrite (truthy_string_conditions_prepare _ FolderIs), 
    (truthy_string_conditions_prepare _ PriorityIs) by (intros; exact I).
  rewrite !andb_true_r.
  destruct (SearchOptions.query options) as [|c q] eqn:Eq; simpl;
    [reflexivity|].
  destruct (SearchOptions.searchIn options) as [fields|] eqn:Ein; simpl;
    [|reflexivity].
  destruct H as [H | H]; [discriminate|].
  destruct fields as [|fd fields]; [congruence|].
  rewrite andb_true_r.
  change (NotesDB.column_of fd :: map NotesDB.column_of fields)
    with (map NotesDB.column_of (fd :: fields)).
  rewrite t_name_is_tags.
  simpl map. apply orb_negb_r.
Qed.


End DbFacts.

(** * The schema constraints hold in every reachable store *)

Module Invariant.

Lemma NoDup_snoc {A} (l : list A) (a : A) :
  NoDup l -> ~ In a l -> NoDup (l ++ [a]).
Proof.
  intros Hl Ha.
  apply (Permutation_NoDup (l := a :: l)).
  - apply Permutation_cons_append.
  - now constructor.
Qed.

Lemma existsb_false {A} (p : A -> bool) (l : list A) :
  existsb p l = false -> forall x, In x l -> p x = false.
Proof.
  intros H x Hx. destruct (p x) eqn:E; [|reflexivity].
  rewrite <- H. symmetry. apply existsb_exists. now exists x.
Qed.

Lemma consistent_empty : consistent empty_store.
Proof.
  constructor; simpl; try constructor; intros; contradiction.
Qed.

Lemma createNote_consistent (note : NewNote.t) (s : Store) :
  consistent s -> consistent (store_after (NotesDB.createNote note) s).
Proof.
  intros [Hid Htitle Hseq Hpair Hfk].
  unfold store_after, NotesDB.createNote.
  destruct (existsb _ (notes s)) eqn:E; simpl; [now constructor|].
  constructor; simpl.
  - rewrite map_app. simpl. apply NoDup_snoc; auto.
    intros Hin. apply in_map_iff in Hin as [r [Hr Hin]].
    apply Hseq in Hin. lia.
  - rewrite map_app. simpl. apply NoDup_snoc; auto.
    intros Hin. apply in_map_iff in Hin as [r [Hr Hin]].
    apply (existsb_false _ _ E) in Hin.
    apply String.eqb_neq in Hin. contradiction.
  - intros r Hin. apply in_app_or in Hin as [Hin | [<- | []]]; simpl.
    + apply Hseq in Hin. lia.
    + lia.
  - assumption.
  - intros t Hin. destruct (Hfk t Hin) as [r [Hr Hrid]].
    exists r. split; auto. apply in_or_app. now left.
Qed.

Section Update.

Variable id : Z.
Variable updates : Partial.t.

Let hit (r : Row.t) : bool := (Row.id r =? id)%Z.
Let upd (r : Row.t) : Row.t :=
  if hit r then NotesDB.set_columns updates r else r.

Lemma upd_keeps_id (l : list Row.t) : map Row.id (map upd l) = map Row.id l.
Proof.
  rewrite map_map. apply map_ext. intros r. unfold upd.
  destruct (hit r); reflexivity.
Qed.

Lemma upd_keeps_title (l : list Row.t) :
  Partial.title updates = None ->
  map Row.title (map upd l) = map Row.title l.
Proof.
  intros H. rewrite map_map. apply map_ext. intros r. unfold upd.
  destruct (hit r); simpl; [rewrite H|]; reflexivity.
Qed.

Lemma upd_no_hit (l : list Row.t) :
  List.length (filter hit l) = 0%nat -> map upd l = l.
Proof.
  induction l as [|a l IH]; simpl; [reflexivity|].
  unfold upd at 1. destruct (hit a); simpl; [discriminate|].
  intros H. now rewrite IH.
Qed.

Lemma upd_titles_unique (t : string) (l : list Row.t) :
  Partial.title updates = Some t ->
  NoDup (map Row.title l) ->
  (List.length (filter hit l) <= 1)%nat ->
  (forall r, In r l -> hit r = false -> Row.title r <> t) ->
  NoDup (map Row.title (map upd l)).
Proof.
  intros Ht. induction l as [|a l IH]; simpl; intros Hnd Hlen Hfree;
    [constructor|].
  inversion Hnd as [|? ? Hnotin Hnd']; subst.
  unfold upd at 1. destruct (hit a) eqn:Ea; simpl in *.
  - rewrite upd_no_hit by lia. rewrite Ht. simpl.
    constructor; auto.
    intros Hin. apply in_map_iff in Hin as [r [Hr Hin]].
    assert (Hr' : hit r = false).
    { destruct (hit r) eqn:Er; [|reflexivity].
      assert (Hf : In r (filter hit l)) by (apply filter_In; auto).
      destruct (filter hit l); [contradiction | simpl in Hlen; lia]. }
    now apply (Hfree r (or_intror Hin) Hr').
  - constructor; auto.
    intros Hin. apply in_map_iff in Hin as [r' [Hr' Hin]].
    apply in_map_iff in Hin as [r [<- Hin]].
    unfold upd in Hr'. destruct (hit r) eqn:Er; simpl in Hr'.
    + rewrite Ht in Hr'. simpl in Hr'.
      apply (Hfree a (or_introl eq_refl) Ea). now symmetry.
    + apply Hnotin. rewrite <- Hr'. now apply in_map.
Qed.

Lemma updateNote_consistent (s : Store) :
  consistent s -> consistent (store_after (NotesDB.updateNote id updates) s).
Proof.
  intros [Hid Htitle Hseq Hpair Hfk].
  unfold store_after, NotesDB.updateNote. cbv zeta.
  destruct (negb (NotesDB.has_sets updates)); cbn [snd]; [now constructor|].
  destruct (List.length _ =? 0)%nat eqn:E0; cbn [snd]; [now constructor|].
  match goal with
  | |- context [if ?taken then (Throw _, _) else _] =>
      destruct taken eqn:Etaken
  end; cbn [snd]; [now constructor|].
  change (consistent
            {| notes := map upd (notes s);
               notes_seq := notes_seq s;
               folders := folders s;
               folders_seq := folders_seq s;
               tags := tags s;
               tags_seq := tags_seq s |}).
  assert (Hkept : forall r, Row.id (upd r) = Row.id r).
  { intros r. unfold upd. destruct (hit r); reflexivity. }
  constructor; cbn [notes tags notes_seq]; auto.
  - now rewrite upd_keeps_id.
  - destruct (Partial.title updates) as [t|] eqn:Et.
    + apply orb_false_iff in Etaken as [Elen Efree].
      apply Nat.ltb_ge in Elen.
      apply (upd_titles_unique t); auto.
      intros r Hin Hr Heq.
      apply (existsb_false _ _ Efree) in Hin.
      unfold hit in Hr. rewrite Hr in Hin. simpl in Hin.
      apply String.eqb_neq in Hin. contradiction.
    + now rewrite upd_keeps_title.
  - intros r' Hin. apply in_map_iff in Hin as [r [<- Hin]].
    rewrite Hkept. auto.
  - intros tg Hin. destruct (Hfk tg Hin) as [r [Hr Hrid]].
    exists (upd r). split; [now apply in_map|].
    now rewrite Hkept.
Qed.

End Update.

Lemma deleteNote_consistent (id : Z) (s : Store) :
  consistent s -> consistent (store_after (NotesDB.deleteNote id) s).
Proof.
  intros [Hid Htitle Hseq Hpair Hfk].
  unfold store_after, NotesDB.deleteNote.
  destruct (List.length _ =? 0)%nat; simpl; [now constructor|].
  constructor; simpl.
  - now apply NoDup_map_filter.
  - now apply NoDup_map_filter.
  - intros r Hin. apply filter_In in Hin as [Hin _]. auto.
  - now apply NoDup_map_filter.
  - intros t Hin. apply filter_In in Hin as [Hin Hne].
    destruct (Hfk t Hin) as [r [Hr Hrid]].
    exists r. split; auto. apply filter_In. split; auto.
    now rewrite Hrid.
Qed.

Lemma addTag_consistent (noteId : Z) (tag : string) (s : Store) :
  consistent s -> consistent (store_after (NotesDB.addTag noteId tag) s).
Proof.
  intros [Hid Htitle Hseq Hpair Hfk].
  unfold store_after, NotesDB.addTag.
  destruct (existsb _ (tags s)) eqn:Edup; simpl; [now constructor|].
  destruct (existsb _ (notes s)) eqn:Eparent; simpl; [|now constructor].
  constructor; simpl; auto.
  - rewrite map_app. simpl. apply NoDup_snoc; auto.
    intros Hin. apply in_map_iff in Hin as [t [Ht Hin]].
    apply (existsb_false _ _ Edup) in Hin.
    inversion Ht as [[Hname Hnote]].
    rewrite Hname, Hnote, String.eqb_refl, Z.eqb_refl in Hin. discriminate.
  - intros t Hin. apply in_app_or in Hin as [Hin | [<- | []]]; auto.
    simpl. apply existsb_exists in Eparent as [r [Hr Hrid]].
    exists r. split; auto. now apply Z.eqb_eq.
Qed.

Lemma removeTags_consistent (noteId : Z) (names : list string) (s : Store) :
  consistent s ->
  consistent (store_after (NotesDB.removeTags noteId names) s).
Proof.
  intros [Hid Htitle Hseq Hpair Hfk].
  constructor; simpl; auto.
  - now apply NoDup_map_filter.
  - intros t Hin. apply filter_In in Hin as [Hin _]. auto.
Qed.

Lemma createFolder_consistent (now name : string) (s : Store) :
  consistent s -> consistent (store_after (NotesDB.createFolder now name) s).
Proof.
  intros [Hid Htitle Hseq Hpair Hfk].
  unfold store_after, NotesDB.createFolder.
  destruct (existsb _ (folders s)); simpl; now constructor.
Qed.

Lemma call_consistent (c : Call) (s : Store) :
  consistent s -> consistent (call c s).
Proof.
  destruct c; simpl;
    auto using createNote_consistent, updateNote_consistent,
      deleteNote_consistent, addTag_consistent, removeTags_consistent,
      createFolder_consistent.
Qed.

Lemma reachable_consistent (s : Store) : reachable s -> consistent s.
Proof.
  induction 1; auto using consistent_empty, call_consistent.
Qed.

End Invariant.

(** * The claims *)

Lemma two_notes_reachable : reachable two_notes.
Proof. unfold two_notes. repeat apply reachable_call. apply reachable_init. Qed.

Lemma two_notes_consistent : consistent two_notes.
Proof. apply Invariant.reachable_consistent, two_notes_reachable. Qed.

Lemma find_title_exists (title : string) (l : list Row.t) :
  (exists r, In r l /\ Row.title r = title) ->
  existsb (fun r => String.eqb (Row.title r) title) l = true.
Proof.
  intros [r [Hin Ht]]. apply existsb_exists. exists r. split; auto.
  now apply String.eqb_eq.
Qed.

(** C2. In a store that holds a note titled T, [createNote] with title T
    throws the UNIQUE constraint failure and leaves the store exactly as it
    was; the handler turns the failure into the InvalidParams rejection
    "the note title already exists", the store again unchanged. *)
Theorem createNote_existing_title_rejected (s : Store) (note : NewNote.t) :
  (exists r, In r (notes s) /\ Row.title r = NewNote.title note) ->
  NotesDB.createNote note s = (Throw (SqliteError SQLITE_CONSTRAINT_UNIQUE), s)
  /\ forall (now : string) (args : CreateNoteArgs.t),
       CreateNoteArgs.title args = NewNote.title note ->
       NotesHandlers.createNote now args s
       = (Throw (McpError InvalidParams TitleExists), s).
Proof.
  intros H. apply find_title_exists in H. split.
  - unfold NotesDB.createNote. now rewrite H.
  - intros now args Ht.
    unfold NotesHandlers.createNote, try_catch, bind, NotesDB.createNote.
    cbn [NewNote.title]. rewrite Ht, H. reflexivity.
Qed.

Lemma createNote_existing_title_rejected_witness :
  NotesDB.createNote groceries two_notes
  = (Throw (SqliteError SQLITE_CONSTRAINT_UNIQUE), two_notes)
  /\ forall (now : string) (args : CreateNoteArgs.t),
       CreateNoteArgs.title args = NewNote.title groceries ->
       NotesHandlers.createNote now args two_notes
       = (Throw (McpError InvalidParams TitleExists), two_notes).
Proof.
  apply (createNote_existing_title_rejected two_notes groceries).
  eexists. split; [left; reflexivity | reflexivity].
Defined.

Lemma find_snoc_fresh {A} (p : A -> bool) (l : list A) (a : A) :
  (forall x, In x l -> p x = false) -> p a = true ->
  find p (l ++ [a]) = Some a.
Proof.
  intros Hl Ha. induction l as [|x l IH]; simpl.
  - now rewrite Ha.
  - rewrite (Hl x (or_introl eq_refl)). apply IH.
    intros y Hy. apply Hl. now right.
Qed.

(** C8. In a consistent store without a note titled T, [createNote] with
    title T returns a note, and [getNoteByTitle T] on the resulting store
    returns a note with the title, content, folder, priority, dueDate,
    createdAt and updatedAt that were supplied, the id [createNote]
    generated (an id no earlier note has), and the empty tag list. *)
Theorem createNote_getNoteByTitle_roundtrip (s : Store) (note : NewNote.t) :
  consistent s ->
  (forall r, In r (notes s) -> Row.title r <> NewNote.title note) ->
  exists (created fetched : Note.t) (s' : Store),
    NotesDB.createNote note s = (Return created, s')
    /\ NotesDB.getNoteByTitle (NewNote.title note) s'
       = (Return (Some fetched), s')
    /\ Note.title fetched = NewNote.title note
    /\ Note.content fetched = NewNote.content note
    /\ Note.folder fetched = NewNote.folder note
    /\ Note.priority fetched = NewNote.priority note
    /\ Note.dueDate fetched = NewNote.dueDate note
    /\ Note.createdAt fetched = NewNote.createdAt note
    /\ Note.updatedAt fetched = NewNote.updatedAt note
    /\ Note.id fetched = Note.id created
    /\ (forall r, In r (notes s) -> Row.id r <> Note.id created)
    /\ Note.tags fetched = Some [].
Proof.
  intros [Hid Htitle Hseq Hpair Hfk] Hfresh.
  assert (E : existsb (fun r => String.eqb (Row.title r) (NewNote.title note))
                (notes s) = false).
  { destruct (existsb _ (notes s)) eqn:E; [|reflexivity].
    apply existsb_exists in E as [r [Hin Hr]].
    apply String.eqb_eq in Hr. now apply Hfresh in Hin. }
  assert (Hnotags :
            filter (fun t => (Tag.noteId t =? notes_seq s + 1)%Z) (tags s)
            = []).
  { destruct (filter _ (tags s)) as [|t l] eqn:Ef; [reflexivity|].
    assert (Hin : In t (filter (fun t => (Tag.noteId t =? notes_seq s + 1)%Z)
                          (tags s))) by (rewrite Ef; now left).
    apply filter_In in Hin as [Hin Ht]. apply Z.eqb_eq in Ht.
    destruct (Hfk t Hin) as [r [Hr Hrid]]. apply Hseq in Hr. lia. }
  unfold NotesDB.createNote. rewrite E.
  eexists. eexists. eexists. split; [reflexivity|].
  split.
  - unfold NotesDB.getNoteByTitle, bind. cbn [notes].
    rewrite find_snoc_fresh.
    + unfold NotesDB.with_tags, bind, NotesDB.getNoteTags, ret.
      cbn [tags Row.id]. rewrite Hnotags. reflexivity.
    + intros x Hx. apply String.eqb_neq. now apply Hfresh.
    + apply String.eqb_refl.
  - cbn. repeat (split; [reflexivity|]).
    split; [|reflexivity].
    intros r Hin. apply Hseq in Hin. lia.
Qed.

Lemma createNote_getNoteByTitle_roundtrip_witness :
  exists (created fetched : Note.t) (s' : Store),
    NotesDB.createNote groceries2
      (call (CreateNote groceries) empty_store) = (Return created, s')
    /\ NotesDB.getNoteByTitle (NewNote.title groceries2) s'
       = (Return (Some fetched), s')
    /\ Note.title fetched = NewNote.title groceries2
    /\ Note.content fetched = NewNote.content groceries2
    /\ Note.folder fetched = NewNote.folder groceries2
    /\ Note.priority fetched = NewNote.priority groceries2
    /\ Note.dueDate fetched = NewNote.dueDate groceries2
    /\ Note.createdAt fetched = NewNote.createdAt groceries2
    /\ Note.updatedAt fetched = NewNote.updatedAt groceries2
    /\ Note.id fetched = Note.id created
    /\ (forall r, In r (notes (call (CreateNote groceries) empty_store)) ->
                  Row.id r <> Note.id created)
    /\ Note.tags fetched = Some [].
Proof.
  apply (createNote_getNoteByTitle_roundtrip
           (call (CreateNote groceries) empty_store) groceries2).
  - apply Invariant.call_consistent, Invariant.consistent_empty.
  - simpl. intros r [<- | []]. simpl. discriminate.
Defined.

Lemma find_title_some (title : string) (l : list Row.t) (r : Row.t) :
  find (fun r => String.eqb (Row.title r) title) l = Some r ->
  In r l /\ Row.title r = title.
Proof.
  intros H. apply find_some in H as [Hin Ht].
  split; auto. now apply String.eqb_eq.
Qed.

(** What [getNoteByTitle] returns is a row of the table, with the tags of
    that row. *)
Lemma getNoteByTitle_found (title : string) (s : Store) (note : Note.t) :
  result (NotesDB.getNoteByTitle title) s = Return (Some note) ->
  NotesDB.getNoteByTitle title s = (Return (Some note), s)
  /\ In (Note.row note) (notes s)
  /\ Note.title note = title
  /\ note = attach_tags s (Note.row note).
Proof.
  unfold result, NotesDB.getNoteByTitle, bind.
  destruct (find _ (notes s)) as [r|] eqn:E; simpl; [|discriminate].
  intros H. inversion H; subst; clear H.
  apply find_title_some in E as [Hin Ht].
  repeat split; auto.
Qed.

(** C9. For a note found by its title and any list of names, the empty
    list included, the [removeTags] handler returns without throwing; the
    tag rows left are exactly the earlier ones that are not a row of this
    note with a listed name, so a listed name the note does not carry
    changes nothing; no row of [notes] changes; with the empty list the
    [tags] table is the same table. *)
Theorem removeTags_deletes_listed (s : Store) (args : TagsArgs.t)
  (note : Note.t) :
  result (NotesDB.getNoteByTitle (TagsArgs.title args)) s
  = Return (Some note) ->
  exists s' : Store,
    NotesHandlers.removeTags args s
    = (Return (TagsRemoved (TagsArgs.title args) (TagsArgs.tags args)), s')
    /\ (forall t : Tag.t,
          In t (tags s') <->
          In t (tags s)
          /\ ~ (Tag.noteId t = Note.id note
                /\ In (Tag.name t) (TagsArgs.tags args)))
    /\ notes s' = notes s
    /\ (TagsArgs.tags args = [] -> tags s' = tags s).
Proof.
  intros H. apply getNoteByTitle_found in H as [Hget _].
  unfold NotesHandlers.removeTags, NotesHandlers.note_titled.
  unfold bind at 1. unfold bind at 1. rewrite Hget.
  eexists. split; [reflexivity|]. cbn [tags notes].
  split; [|split].
  - intros t. rewrite filter_In, negb_true_iff, andb_false_iff.
    apply and_iff_compat_l. split.
    + intros [Hne | Hnot] [Hid Hname].
      * apply Z.eqb_neq in Hne. contradiction.
      * apply (Invariant.existsb_false _ _ Hnot) in Hname.
        rewrite String.eqb_refl in Hname. discriminate.
    + intros Hn. destruct (Tag.noteId t =? Note.id note)%Z eqn:Eid;
        [right | now left].
      apply Z.eqb_eq in Eid.
      destruct (existsb _ (TagsArgs.tags args)) eqn:Ex; [|reflexivity].
      apply existsb_exists in Ex as [name [Hin Hname]].
      apply String.eqb_eq in Hname. subst name. exfalso. now apply Hn.
  - reflexivity.
  - intros ->. simpl. apply forallb_filter_id. apply forallb_forall.
    intros t _. now rewrite andb_false_r.
Qed.

Lemma removeTags_deletes_listed_witness :
  exists s' : Store,
    NotesHandlers.removeTags
      {| TagsArgs.title := "Groceries"; TagsArgs.tags := ["a"; "zz"]%string |}
      two_notes
    = (Return (TagsRemoved "Groceries" ["a"; "zz"]%string), s')
    /\ (forall t : Tag.t,
          In t (tags s') <->
          In t (tags two_notes)
          /\ ~ (Tag.noteId t = 1%Z /\ In (Tag.name t) ["a"; "zz"]%string))
    /\ notes s' = notes two_notes
    /\ (["a"; "zz"]%string = [] -> tags s' = tags two_notes).
Proof.
  apply (removeTags_deletes_listed two_notes
           {| TagsArgs.title := "Groceries";
              TagsArgs.tags := ["a"; "zz"]%string |}
           (attach_tags two_notes
              {| Row.id := 1;
                 Row.title := "Groceries";
                 Row.content := "buy milk";
                 Row.folder := Some "home"%string;
                 Row.priority := Some high;
                 Row.dueDate := None;
                 Row.createdAt := "2024-01-01T10:00:00.000Z";
                 Row.updatedAt := "2024-01-01T10:00:00.000Z" |})).
  reflexivity.
Defined.

(** C10. Two search requests that differ only in [hasDueDate] make
    [searchNotes] return the same notes in the same order (or throw the
    same error), at the repository and at the handler. *)
Theorem searchNotes_ignores_hasDueDate (s : Store) (o1 o2 : SearchOptions.t) :
  same_but_hasDueDate o1 o2 ->
  NotesDB.searchNotes o1 s = NotesDB.searchNotes o2 s
  /\ NotesHandlers.searchNotes o1 s = NotesHandlers.searchNotes o2 s.
Proof.
  intros (Hq & Hin & Hf & Hp & Hby & Hord & Hl & Hoff).
  assert (E : NotesDB.search_statement o1 = NotesDB.search_statement o2).
  { unfold NotesDB.search_statement.
    now rewrite Hq, Hin, Hf, Hp, Hl, Hoff. }
  assert (E' : NotesDB.searchNotes o1 s = NotesDB.searchNotes o2 s).
  { unfold NotesDB.searchNotes. now rewrite E. }
  split; [exact E'|].
  unfold NotesHandlers.searchNotes, bind. now rewrite E'.
Qed.

Lemma searchNotes_ignores_hasDueDate_witness :
  NotesDB.searchNotes
    {| SearchOptions.query := "milk";
       SearchOptions.searchIn := None;
       SearchOptions.folder := None;
       SearchOptions.priority := None;
       SearchOptions.hasDueDate := Some true;
       SearchOptions.sortBy := None;
       SearchOptions.sortOrder := None;
       SearchOptions.limit := None;
       SearchOptions.offset := None |} two_notes
  = NotesDB.searchNotes (search_for "milk") two_notes
  /\ NotesHandlers.searchNotes
       {| SearchOptions.query := "milk";
          SearchOptions.searchIn := None;
          SearchOptions.folder := None;
          SearchOptions.priority := None;
          SearchOptions.hasDueDate := Some true;
          SearchOptions.sortBy := None;
          SearchOptions.sortOrder := None;
          SearchOptions.limit := None;
          SearchOptions.offset := None |} two_notes
     = NotesHandlers.searchNotes (search_for "milk") two_notes.
Proof.
  apply searchNotes_ignores_hasDueDate.
  unfold same_but_hasDueDate. simpl. repeat split.
Defined.

Lemma filter_length_split {A} (p : A -> bool) (l : list A) :
  (List.length (filter (fun x => negb (p x)) l)
   + List.length (filter p l) = List.length l)%nat.
Proof.
  induction l as [|a l IH]; simpl; [reflexivity|].
  destruct (p a); simpl; lia.
Qed.

(** C6. In every reachable store each tag row references an existing
    note. For a note of such a store that has N tag rows, [deleteNote] on
    its id returns true; afterwards the note row is gone, exactly the N tag
    rows of that note are gone (every other tag row and note row stays),
    and the tag lookup for that id returns no name; the store reached is
    again one in which every tag row references an existing note. *)
Theorem deleteNote_cascades (s : Store) :
  reachable s ->
  (forall t, In t (tags s) ->
             exists r, In r (notes s) /\ Row.id r = Tag.noteId t)
  /\ forall r : Row.t,
       In r (notes s) ->
       exists s' : Store,
         NotesDB.deleteNote (Row.id r) s = (Return true, s')
         /\ (forall r', In r' (notes s') <->
                        In r' (notes s) /\ Row.id r' <> Row.id r)
         /\ (forall t, In t (tags s') <->
                       In t (tags s) /\ Tag.noteId t <> Row.id r)
         /\ (List.length (tags s')
             + List.length (tag_rows_of (Row.id r) s)
             = List.length (tags s))%nat
         /\ tag_rows_of (Row.id r) s' = []
         /\ NotesDB.getNoteTags (Row.id r) s' = (Return [], s')
         /\ (forall t, In t (tags s') ->
                       exists r', In r' (notes s') /\ Row.id r' = Tag.noteId t).
Proof.
  intros Hreach.
  pose proof (Invariant.reachable_consistent s Hreach) as Hs.
  split; [apply (tags_reference_notes s Hs)|].
  intros r Hin.
  assert (Hhit : (List.length (filter (fun r' => (Row.id r' =? Row.id r)%Z)
                                 (notes s)) =? 0)%nat = false).
  { apply Nat.eqb_neq. intros H0.
    assert (Hf : In r (filter (fun r' => (Row.id r' =? Row.id r)%Z) (notes s)))
      by (apply filter_In; split; [assumption | apply Z.eqb_refl]).
    destruct (filter _ (notes s)); [contradiction | discriminate]. }
  assert (Hnone : tag_rows_of (Row.id r)
                    (store_after (NotesDB.deleteNote (Row.id r)) s) = []).
  { unfold store_after, NotesDB.deleteNote. rewrite Hhit.
    unfold tag_rows_of. cbn [snd tags].
    destruct (filter _ (filter _ (tags s))) as [|t l] eqn:Ef; [reflexivity|].
    assert (Ht : In t (t :: l)) by now left.
    rewrite <- Ef in Ht. apply filter_In in Ht as [Ht Heq].
    apply filter_In in Ht as [_ Hne]. rewrite Heq in Hne. discriminate. }
  pose proof (Invariant.deleteNote_consistent (Row.id r) s Hs) as Hs'.
  revert Hnone Hs'. unfold store_after, NotesDB.deleteNote. rewrite Hhit.
  cbn [snd]. intros Hnone Hs'.
  eexists. split; [reflexivity|]. cbn [notes tags].
  split; [|split; [|split; [|split; [|split]]]].
  - intros r'. rewrite filter_In, negb_true_iff, Z.eqb_neq. reflexivity.
  - intros t. rewrite filter_In, negb_true_iff, Z.eqb_neq. reflexivity.
  - apply filter_length_split.
  - exact Hnone.
  - unfold NotesDB.getNoteTags. unfold tag_rows_of in Hnone.
    now rewrite Hnone.
  - apply (tags_reference_notes _ Hs').
Qed.

Lemma deleteNote_cascades_witness :
  (forall t, In t (tags two_notes) ->
             exists r, In r (notes two_notes) /\ Row.id r = Tag.noteId t)
  /\ forall r : Row.t,
       In r (notes two_notes) ->
       exists s' : Store,
         NotesDB.deleteNote (Row.id r) two_notes = (Return true, s')
         /\ (forall r', In r' (notes s') <->
                        In r' (notes two_notes) /\ Row.id r' <> Row.id r)
         /\ (forall t, In t (tags s') <->
                       In t (tags two_notes) /\ Tag.noteId t <> Row.id r)
         /\ (List.length (tags s')
             + List.length (tag_rows_of (Row.id r) two_notes)
             = List.length (tags two_notes))%nat
         /\ tag_rows_of (Row.id r) s' = []
         /\ NotesDB.getNoteTags (Row.id r) s' = (Return [], s')
         /\ (forall t, In t (tags s') ->
                       exists r', In r' (notes s') /\ Row.id r' = Tag.noteId t).
Proof.
  apply (deleteNote_cascades two_notes).
  unfold two_notes. repeat apply reachable_call. apply reachable_init.
Defined.

(** Deleting the note with two tags from the small database leaves one
    note and no tag row. *)
Example deleteNote_two_tags :
  List.length (tag_rows_of 1 two_notes) = 2%nat
  /\ exists s' : Store,
       NotesDB.deleteNote 1 two_notes = (Return true, s')
       /\ tags s' = []
       /\ map Row.title (notes s') = ["Groceries2"%string].
Proof.
  split; [reflexivity|]. eexists. repeat split.
Qed.

(** * Facts about the rows a search selects *)

Module SearchFacts.

Import Sql SqlFacts.








Lemma ordered_rows_sorted (q : SelectNotes) (s : Store) :
  Sorted newer_first (ordered_rows q s).
Proof. apply order_sorted. Qed.


End SearchFacts.




(** The note tagged ["a"] and ["ab"] is returned once by the search for
    ["a"] in the tags, although the join yields it twice. *)
Example search_tags_a_once :
  List.length
    (filter
       (fun jr =>
          forallb (Sql.holds jr)
            (Sql.conditions (NotesDB.search_statement search_tags_a)))
       (Sql.from_clause true two_notes)) = 2%nat
  /\ exists found,
       result (NotesDB.searchNotes search_tags_a) two_notes = Return found
       /\ map Note.title found = ["Groceries"%string]
       /\ map Note.tags found = [Some ["a"; "ab"]%string].
Proof.
  split; [reflexivity|]. eexists. repeat split.
Qed.

(** * The listing path: a search with the empty query *)

Module ListingFacts.

Import Sql SqlFacts.








End ListingFacts.





(** Listing folder ["home"] returns the one note of that folder; listing
    without a filter returns both notes, the newer first. *)
Example getNotes_home :
  result
    (NotesHandlers.getNotes
       {| GetNotesArgs.folder := Some "home"%string;
          GetNotesArgs.limit := None;
          GetNotesArgs.offset := None |}) two_notes
  = Return
      (NotesJson
         [attach_tags two_notes
            {| Row.id := 1;
               Row.title := "Groceries";
               Row.content := "buy milk";
               Row.folder := Some "home"%string;
               Row.priority := Some high;
               Row.dueDate := None;
               Row.createdAt := "2024-01-01T10:00:00.000Z";
               Row.updatedAt := "2024-01-01T10:00:00.000Z" |}])
  /\ exists found,
       result (NotesDB.searchNotes (search_for "")) two_notes = Return found
       /\ map Note.title found = ["Groceries2"; "Groceries"]%string.
Proof.
  split; [reflexivity|]. eexists. split; reflexivity.
Qed.

(** * The LIMIT window *)

Lemma set_offset_statement (offset : option Z) (options : SearchOptions.t) :
  SearchOptions.limit options = None ->
  NotesDB.search_statement (set_offset offset options)
  = NotesDB.search_statement options.
Proof.
  intros H. unfold NotesDB.search_statement, set_offset.
  cbn [SearchOptions.query SearchOptions.searchIn SearchOptions.folder
       SearchOptions.priority SearchOptions.limit SearchOptions.offset].
  now rewrite H.
Qed.




(** The second page of size one of the search for ["milk"] is the older
    note; an offset without a limit returns both notes. *)
Example second_page_run :
  (exists found,
      result (NotesDB.searchNotes second_page) two_notes = Return found
      /\ map Note.title found = ["Groceries"%string])
  /\ exists found,
       result (NotesDB.searchNotes (set_offset (Some 1%Z) (search_for "milk")))
         two_notes = Return found
       /\ map Note.title found = ["Groceries2"; "Groceries"]%string.
Proof.
  split; eexists; split; reflexivity.
Qed.

(** * The order of the result *)

(** [sortBy] and [sortOrder] are never read. *)
Lemma searchNotes_ignores_sort (s : Store) (o1 o2 : SearchOptions.t) :
  same_but_sort o1 o2 ->
  NotesDB.searchNotes o1 s = NotesDB.searchNotes o2 s.
Proof.
  intros (Hq & Hin & Hf & Hp & _ & Hl & Hoff).
  unfold NotesDB.searchNotes, NotesDB.search_statement.
  now rewrite Hq, Hin, Hf, Hp, Hl, Hoff.
Qed.

Lemma attach_tags_sorted (s : Store) (rows : list Row.t) :
  Sorted newer_first rows ->
  Sorted (fun a b => newer_first (Note.row a) (Note.row b))
    (map (attach_tags s) rows).
Proof.
  induction 1 as [|r l Hs IH Hhd]; simpl; constructor; auto.
  destruct Hhd; simpl; constructor; auto.
Qed.

(** Whatever is requested, the notes come newest [updatedAt] first. *)
Lemma searchNotes_newest_first (s : Store) (options : SearchOptions.t)
  (found : list Note.t) :
  result (NotesDB.searchNotes options) s = Return found ->
  Sorted (fun a b => newer_first (Note.row a) (Note.row b)) found.
Proof.
  unfold result. rewrite DbFacts.searchNotes_run. cbv zeta.
  destruct (Sql.prepares _); cbn [fst]; [|discriminate].
  destruct (Sql.binds _); cbn [fst]; [|discriminate].
  intros H. inversion H; subst; clear H.
  apply attach_tags_sorted, SqlFacts.window_sorted,
    SearchFacts.ordered_rows_sorted.
Qed.

(** C1, on the failing input. The small database holds "Groceries"
    (updated 2024-01-01) and "Groceries2" (updated 2024-01-02). The search
    for "milk" with [sortBy: 'updatedAt'] and [sortOrder: 'asc'] returns
    "Groceries2" before "Groceries": newest first, which is not the order
    the request asks for. *)
Theorem searchNotes_requested_order_not_applied :
  exists found : list Note.t,
    NotesHandlers.searchNotes oldest_first two_notes
    = (Return (NotesJson found), two_notes)
    /\ map Note.title found = ["Groceries2"; "Groceries"]%string
    /\ map Note.updatedAt found
       = ["2024-01-02T10:00:00.000Z"; "2024-01-01T10:00:00.000Z"]%string
    /\ ~ in_requested_order (SearchOptions.sortBy oldest_first)
           (SearchOptions.sortOrder oldest_first) found.
Proof.
  eexists. split; [reflexivity|]. split; [reflexivity|].
  split; [reflexivity|].
  unfold in_requested_order. simpl. intros H.
  inversion H as [|? ? _ Hhd]; subst.
  inversion Hhd as [|? ? Hle]; subst.
  vm_compute in Hle. discriminate.
Qed.

(** * Partial update *)

Lemma find_by_id (l : list Row.t) (r : Row.t) :
  NoDup (map Row.id l) -> In r l ->
  find (fun x => (Row.id x =? Row.id r)%Z) l = Some r.
Proof.
  induction l as [|a l IH]; simpl; intros Hnd Hin; [contradiction|].
  inversion Hnd as [|? ? Hnotin Hnd']; subst.
  destruct Hin as [-> | Hin].
  - now rewrite Z.eqb_refl.
  - destruct (Row.id a =? Row.id r)%Z eqn:E; [|auto].
    apply Z.eqb_eq in E. exfalso. apply Hnotin. rewrite E.
    now apply in_map.
Qed.

Lemma filter_hit_nonempty (l : list Row.t) (r : Row.t) :
  In r l ->
  (List.length (filter (fun x => (Row.id x =? Row.id r)%Z) l) =? 0)%nat
  = false.
Proof.
  intros Hin. apply Nat.eqb_neq. intros H0.
  assert (Hf : In r (filter (fun x => (Row.id x =? Row.id r)%Z) l))
    by (apply filter_In; split; [assumption | apply Z.eqb_refl]).
  destruct (filter _ l); [contradiction | discriminate].
Qed.

(** The store [updateNote] leaves has the tag rows and the note ids it
    found, whatever the payload, [id] and [tags] keys included. *)
Lemma updateNote_keeps_ids_and_tags (id : Z) (updates : Partial.t)
  (s : Store) :
  tags (store_after (NotesDB.updateNote id updates) s) = tags s
  /\ map Row.id (notes (store_after (NotesDB.updateNote id updates) s))
     = map Row.id (notes s).
Proof.
  unfold store_after, NotesDB.updateNote. cbv zeta.
  destruct (negb _); cbn [snd]; [now split|].
  destruct (_ =? 0)%nat; cbn [snd]; [now split|].
  match goal with
  | |- context [if ?taken then (Throw _, _) else _] => destruct taken
  end; cbn [snd notes tags]; [now split|].
  split; [reflexivity|].
  rewrite map_map. apply map_ext. intros r.
  destruct (Row.id r =? id)%Z; reflexivity.
Qed.

(** C7. For a note found by its title in a consistent store and any
    update arguments, the [updateNote] handler returns; the note read back
    by its id has the same id, the same tags, the same title and
    createdAt, the supplied content, folder, priority and dueDate where one
    is supplied and the previous value where none is, and [updatedAt] set
    to the new stamp. The [tags] table and every other note are as before.
    At the repository, no payload, even one with [id] or [tags] keys,
    changes a note id or a tag row. *)
Theorem updateNote_overwrites_supplied_only (s : Store) (now : string)
  (args : UpdateNoteArgs.t) (note : Note.t) :
  consistent s ->
  result (NotesDB.getNoteByTitle (UpdateNoteArgs.title args)) s
  = Return (Some note) ->
  (exists (s' : Store) (note' : Note.t),
      NotesHandlers.updateNote now args s
      = (Return (NoteUpdated (UpdateNoteArgs.title args)), s')
      /\ NotesDB.getNote (Note.id note) s' = (Return (Some note'), s')
      /\ Note.id note' = Note.id note
      /\ Note.tags note' = Note.tags note
      /\ Note.title note' = Note.title note
      /\ Note.createdAt note' = Note.createdAt note
      /\ Note.content note'
         = NotesDB.or_else (UpdateNoteArgs.content args) (Note.content note)
      /\ Note.folder note'
         = overwritten (UpdateNoteArgs.folder args) (Note.folder note)
      /\ Note.priority note'
         = overwritten (UpdateNoteArgs.priority args) (Note.priority note)
      /\ Note.dueDate note'
         = overwritten (UpdateNoteArgs.dueDate args) (Note.dueDate note)
      /\ Note.updatedAt note' = now
      /\ tags s' = tags s
      /\ (forall r, In r (notes s) -> Row.id r <> Note.id note ->
                    In r (notes s')))
  /\ forall (id : Z) (updates : Partial.t),
       tags (store_after (NotesDB.updateNote id updates) s) = tags s
       /\ map Row.id (notes (store_after (NotesDB.updateNote id updates) s))
          = map Row.id (notes s).
Proof.
  intros Hs Hfound.
  split; [|intros id updates; apply updateNote_keeps_ids_and_tags].
  apply getNoteByTitle_found in Hfound as (Hget & Hin & _ & Hnote).
  destruct note as [r tg]. cbn [Note.row] in Hin, Hnote.
  unfold NotesHandlers.updateNote, NotesHandlers.note_titled.
  unfold bind at 1. unfold bind at 1. rewrite Hget.
  unfold ret at 1. unfold bind at 1.
  unfold Note.id. cbn [Note.row].
  set (updates := {| Partial.id := None; Partial.title := None;
                     Partial.content := UpdateNoteArgs.content args;
                     Partial.folder := UpdateNoteArgs.folder args;
                     Partial.tags := None;
                     Partial.priority := UpdateNoteArgs.priority args;
                     Partial.dueDate := UpdateNoteArgs.dueDate args;
                     Partial.createdAt := None;
                     Partial.updatedAt := Some now |}).
  assert (Hsets : NotesDB.has_sets updates = true).
  { unfold NotesDB.has_sets, updates. cbn. now rewrite !orb_true_r. }
  unfold NotesDB.updateNote. cbv zeta. rewrite Hsets. cbn [negb].
  rewrite (filter_hit_nonempty (notes s) r Hin).
  change (Partial.title updates) with (@None string). cbv iota.
  set (upd := fun x : Row.t =>
                if (Row.id x =? Row.id r)%Z
                then NotesDB.set_columns updates x else x).
  assert (Hids : map Row.id (map upd (notes s)) = map Row.id (notes s)).
  { rewrite map_map. apply map_ext. intros x. unfold upd.
    destruct (Row.id x =? Row.id r)%Z; reflexivity. }
  assert (Hupd : upd r = NotesDB.set_columns updates r).
  { unfold upd. now rewrite Z.eqb_refl. }
  assert (Hfind : find (fun x => (Row.id x =? Row.id r)%Z) (map upd (notes s))
                  = Some (upd r)).
  { change (Row.id r) with (Row.id (NotesDB.set_columns updates r)).
    rewrite <- Hupd. apply find_by_id.
    - rewrite Hids. apply (note_ids_unique s Hs).
    - now apply in_map. }
  eexists. exists (attach_tags s (upd r)).
  split; [reflexivity|]. split.
  - unfold NotesDB.getNote, bind. cbn [notes]. rewrite Hfind.
    rewrite Hupd. reflexivity.
  - rewrite Hupd. inversion Hnote; subst tg.
    cbn. repeat (split; [reflexivity|]).
    intros x Hx Hne. apply in_map_iff. exists x. split; [|assumption].
    unfold upd. apply Z.eqb_neq in Hne. now rewrite Hne.
Qed.

Lemma updateNote_overwrites_supplied_only_witness :
  (exists (s' : Store) (note' : Note.t),
      NotesHandlers.updateNote "2024-03-01T09:30:00.000Z" new_content two_notes
      = (Return (NoteUpdated (UpdateNoteArgs.title new_content)), s')
      /\ NotesDB.getNote 1 s' = (Return (Some note'), s')
      /\ Note.id note' = 1%Z
      /\ Note.tags note' = Some ["a"; "ab"]%string
      /\ Note.title note' = "Groceries"%string
      /\ Note.createdAt note' = "2024-01-01T10:00:00.000Z"%string
      /\ Note.content note' = "buy oat milk"%string
      /\ Note.folder note' = Some "home"%string
      /\ Note.priority note' = Some high
      /\ Note.dueDate note' = None
      /\ Note.updatedAt note' = "2024-03-01T09:30:00.000Z"%string
      /\ tags s' = tags two_notes
      /\ (forall r, In r (notes two_notes) -> Row.id r <> 1%Z ->
                    In r (notes s')))
  /\ forall (id : Z) (updates : Partial.t),
       tags (store_after (NotesDB.updateNote id updates) two_notes)
       = tags two_notes
       /\ map Row.id
            (notes (store_after (NotesDB.updateNote id updates) two_notes))
          = map Row.id (notes two_notes).
Proof.
  apply (updateNote_overwrites_supplied_only two_notes
           "2024-03-01T09:30:00.000Z" new_content
           (attach_tags two_notes groceries_row)).
  - apply Invariant.reachable_consistent.
    unfold two_notes. repeat apply reachable_call. apply reachable_init.
  - reflexivity.
Defined.

(** * Looking a note up by its title *)

Module LookupFacts.

Lemma getNoteByTitle_run (title : string) (s : Store) :
  NotesDB.getNoteByTitle title s
  = (Return
       (option_map (attach_tags s)
          (find (fun r => String.eqb (Row.title r) title) (notes s))),
     s).
Proof.
  unfold NotesDB.getNoteByTitle, bind.
  destruct (find _ (notes s)); reflexivity.
Qed.

Lemma getNote_run (id : Z) (s : Store) :
  NotesDB.getNote id s
  = (Return
       (option_map (attach_tags s)
          (find (fun r => (Row.id r =? id)%Z) (notes s))),
     s).
Proof.
  unfold NotesDB.getNote, bind.
  destruct (find _ (notes s)); reflexivity.
Qed.

Lemma found_row (title : string) (s : Store) (note : Note.t) :
  result (NotesDB.getNoteByTitle title) s = Return (Some note) ->
  find (fun r => String.eqb (Row.title r) title) (notes s)
  = Some (Note.row note)
  /\ note = attach_tags s (Note.row note).
Proof.
  unfold result. rewrite getNoteByTitle_run. cbn [fst].
  destruct (find _ (notes s)) as [r|]; cbn [option_map]; [|discriminate].
  intros H. inversion H; subst. split; reflexivity.
Qed.

Lemma note_titled_found (title : string) (s : Store) (r : Row.t) :
  find (fun r => String.eqb (Row.title r) title) (notes s) = Some r ->
  NotesHandlers.note_titled title s = (Return (attach_tags s r), s).
Proof.
  intros H. unfold NotesHandlers.note_titled, bind.
  rewrite getNoteByTitle_run, H. reflexivity.
Qed.

Lemma note_titled_missing (title : string) (s : Store) :
  find (fun r => String.eqb (Row.title r) title) (notes s) = None ->
  NotesHandlers.note_titled title s
  = (Throw (McpError InvalidParams (NoteNotFound title)), s).
Proof.
  intros H. unfold NotesHandlers.note_titled, bind.
  rewrite getNoteByTitle_run, H. reflexivity.
Qed.

Lemma no_title_no_row (title : string) (l : list Row.t) :
  (forall r, In r l -> Row.title r <> title) ->
  find (fun r => String.eqb (Row.title r) title) l = None.
Proof.
  intros H. destruct (find _ l) as [r|] eqn:E; [|reflexivity].
  apply find_some in E as [Hin Ht]. apply String.eqb_eq in Ht.
  now apply H in Hin.
Qed.

End LookupFacts.

(** * Tags *)

Module TagFacts.

Lemma In_tag_names (noteId : Z) (name : string) (s : Store) :
  In name (tag_names noteId s) <->
  exists t, In t (tags s) /\ Tag.noteId t = noteId /\ Tag.name t = name.
Proof.
  unfold tag_names, tag_rows_of. rewrite in_map_iff. split.
  - intros [t [Hn Hin]]. apply filter_In in Hin as [Hin Hid].
    apply Z.eqb_eq in Hid. now exists t.
  - intros [t [Hin [Hid Hn]]]. exists t. split; [assumption|].
    apply filter_In. split; [assumption|]. now apply Z.eqb_eq.
Qed.

(** One [addTag] for a note that exists. *)
Lemma addTag_run (noteId : Z) (tag : string) (s : Store) :
  (exists r, In r (notes s) /\ Row.id r = noteId) ->
  exists s' : Store,
    NotesDB.addTag noteId tag s = (Return tt, s')
    /\ notes s' = notes s
    /\ forall (nid : Z) (name : string),
         In name (tag_names nid s') <->
         In name (tag_names nid s) \/ (nid = noteId /\ name = tag).
Proof.
  intros [r [Hr Hrid]]. unfold NotesDB.addTag.
  destruct (existsb _ (tags s)) eqn:Edup.
  - eexists. split; [reflexivity|]. split; [reflexivity|].
    intros nid name.
    change (In name (tag_names nid s) <->
            In name (tag_names nid s) \/ nid = noteId /\ name = tag).
    split; [now left|].
    intros [H | [-> ->]]; [assumption|].
    apply existsb_exists in Edup as [t [Hin Ht]].
    apply andb_true_iff in Ht as [Hn Hid].
    apply String.eqb_eq in Hn. apply Z.eqb_eq in Hid.
    apply In_tag_names. now exists t.
  - assert (Eparent : existsb (fun r => (Row.id r =? noteId)%Z) (notes s)
                      = true).
    { apply existsb_exists. exists r. split; [assumption|].
      now apply Z.eqb_eq. }
    rewrite Eparent. eexists. split; [reflexivity|].
    split; [reflexivity|].
    intros nid name. rewrite !In_tag_names. cbn [tags]. split.
    + intros [t [Hin [Hid Hn]]].
      apply in_app_or in Hin as [Hin | [<- | []]].
      * left. now exists t.
      * right. cbn in Hid, Hn. now split.
    + intros [[t [Hin [Hid Hn]]] | [-> ->]].
      * exists t. split; [apply in_or_app; now left | now split].
      * eexists. split; [apply in_or_app; right; left; reflexivity|].
        now split.
Qed.

Lemma add_each_run (noteId : Z) (names : list string) (s : Store) :
  (exists r, In r (notes s) /\ Row.id r = noteId) ->
  exists s' : Store,
    NotesHandlers.add_each noteId names s = (Return tt, s')
    /\ notes s' = notes s
    /\ forall (nid : Z) (name : string),
         In name (tag_names nid s') <->
         In name (tag_names nid s) \/ (nid = noteId /\ In name names).
Proof.
  revert s. induction names as [|tag names IH]; intros s Hnote.
  - exists s. split; [reflexivity|]. split; [reflexivity|].
    intros nid name. simpl. tauto.
  - destruct (addTag_run noteId tag s Hnote) as (s1 & Hrun & Hnotes & Hnames).
    assert (Hnote1 : exists r, In r (notes s1) /\ Row.id r = noteId)
      by now rewrite Hnotes.
    destruct (IH s1 Hnote1) as (s2 & Hrun2 & Hnotes2 & Hnames2).
    exists s2. split; [|split].
    + cbn [NotesHandlers.add_each]. unfold bind. now rewrite Hrun.
    + congruence.
    + intros nid name. rewrite Hnames2, Hnames. simpl.
      intuition (subst; auto).
Qed.

Lemma removeTags_names (noteId : Z) (names : list string) (s : Store)
  (nid : Z) (name : string) :
  In name (tag_names nid (store_after (NotesDB.removeTags noteId names) s))
  <-> In name (tag_names nid s) /\ ~ (nid = noteId /\ In name names).
Proof.
  rewrite !In_tag_names. cbn [store_after NotesDB.removeTags snd tags].
  split.
  - intros [t [Hin [Hid Hn]]]. apply filter_In in Hin as [Hin Hkeep].
    split; [now exists t|].
    intros [-> Hlisted]. subst name.
    rewrite Hid, Z.eqb_refl in Hkeep. cbn [andb] in Hkeep.
    apply negb_true_iff in Hkeep.
    apply (Invariant.existsb_false _ _ Hkeep) in Hlisted.
    rewrite String.eqb_refl in Hlisted. discriminate.
  - intros [[t [Hin [Hid Hn]]] Hnot]. exists t.
    split; [|now split]. apply filter_In. split; [assumption|].
    apply negb_true_iff. apply andb_false_iff.
    destruct (Tag.noteId t =? noteId)%Z eqn:E; [right | now left].
    apply Z.eqb_eq in E.
    destruct (existsb _ names) eqn:Ex; [|reflexivity].
    apply existsb_exists in Ex as [n [Hn' Heq]].
    apply String.eqb_eq in Heq. exfalso. apply Hnot.
    split; [congruence|]. congruence.
Qed.

Lemma pair_rows_at_most_one (name : string) (noteId : Z) (l : list Tag.t) :
  NoDup (map (fun t => (Tag.name t, Tag.noteId t)) l) ->
  (List.length
     (filter
        (fun t => String.eqb (Tag.name t) name && (Tag.noteId t =? noteId)%Z)
        l) <= 1)%nat.
Proof.
  induction l as [|t l IH]; simpl; intros Hnd; [lia|].
  inversion Hnd as [|? ? Hnotin Hnd']; subst.
  destruct (String.eqb (Tag.name t) name && (Tag.noteId t =? noteId)%Z)
    eqn:E; [|auto].
  apply andb_true_iff in E as [En Ei].
  apply String.eqb_eq in En. apply Z.eqb_eq in Ei.
  destruct (filter _ l) as [|t' l'] eqn:Ef; [simpl; lia|].
  exfalso. apply Hnotin.
  assert (Hin : In t' (t' :: l')) by now left.
  rewrite <- Ef in Hin. apply filter_In in Hin as [Hin Ht'].
  apply andb_true_iff in Ht' as [En' Ei'].
  apply String.eqb_eq in En'. apply Z.eqb_eq in Ei'.
  apply in_map_iff. exists t'. split; [congruence | assumption].
Qed.

End TagFacts.

(** X1. [addTag] on a note of a consistent store returns, and afterwards
    the table holds exactly one row for the pair (name, noteId), whether
    the note carried the tag before or not. Adding the same tag again
    returns too and writes no row: the tables [tags], [notes] and
    [folders] are as before, and only the AUTOINCREMENT counter of [tags]
    advances by one. *)
Theorem addTag_same_tag_one_row (s : Store) (r : Row.t) (tag : string) :
  consistent s ->
  In r (notes s) ->
  exists s' s'' : Store,
    NotesDB.addTag (Row.id r) tag s = (Return tt, s')
    /\ List.length (tag_pair_rows tag (Row.id r) s') = 1%nat
    /\ notes s' = notes s
    /\ NotesDB.addTag (Row.id r) tag s' = (Return tt, s'')
    /\ tags s'' = tags s'
    /\ notes s'' = notes s'
    /\ folders s'' = folders s'
    /\ tags_seq s'' = (tags_seq s' + 1)%Z.
Proof.
  intros Hs Hin.
  pose proof (Invariant.addTag_consistent (Row.id r) tag s Hs) as Hs'.
  destruct (TagFacts.addTag_run (Row.id r) tag s) as (s' & Hrun & Hnotes & Hn).
  { now exists r. }
  unfold store_after in Hs'. rewrite Hrun in Hs'. cbn [snd] in Hs'.
  exists s'.
  assert (Hone : List.length (tag_pair_rows tag (Row.id r) s') = 1%nat).
  { pose proof (TagFacts.pair_rows_at_most_one tag (Row.id r) (tags s')
                  (tag_pairs_unique s' Hs')) as Hle.
    assert (Hhas : In tag (tag_names (Row.id r) s'))
      by (apply Hn; right; now split).
    apply TagFacts.In_tag_names in Hhas as [t [Ht [Hid Hname]]].
    assert (Hrow : In t (tag_pair_rows tag (Row.id r) s')).
    { apply filter_In. split; [assumption|].
      now rewrite Hid, Hname, String.eqb_refl, Z.eqb_refl. }
    unfold tag_pair_rows in *.
    destruct (filter _ (tags s')) as [|x [|y l]];
      [contradiction | reflexivity | simpl in Hle; lia]. }
  assert (Hdup : existsb
                   (fun t => String.eqb (Tag.name t) tag
                             && (Tag.noteId t =? Row.id r)%Z) (tags s')
                 = true).
  { unfold tag_pair_rows in Hone.
    destruct (filter _ (tags s')) as [|t l] eqn:Ef; [discriminate|].
    assert (Hin' : In t (t :: l)) by now left.
    rewrite <- Ef in Hin'. apply filter_In in Hin' as [Hin' Ht].
    apply existsb_exists. now exists t. }
  eexists. split; [exact Hrun|]. split; [exact Hone|].
  split; [exact Hnotes|].
  unfold NotesDB.addTag. rewrite Hdup.
  split; [reflexivity|]. repeat split.
Qed.

Lemma addTag_same_tag_one_row_witness :
  exists s' s'' : Store,
    NotesDB.addTag (Row.id groceries_row) "a" two_notes = (Return tt, s')
    /\ List.length (tag_pair_rows "a" (Row.id groceries_row) s') = 1%nat
    /\ notes s' = notes two_notes
    /\ NotesDB.addTag (Row.id groceries_row) "a" s' = (Return tt, s'')
    /\ tags s'' = tags s'
    /\ notes s'' = notes s'
    /\ folders s'' = folders s'
    /\ tags_seq s'' = (tags_seq s' + 1)%Z.
Proof.
  apply (addTag_same_tag_one_row two_notes groceries_row "a").
  - apply Invariant.reachable_consistent.
    unfold two_notes. repeat apply reachable_call. apply reachable_init.
  - left. reflexivity.
Defined.

(** X2. [addTag] for an id that no note of a consistent store has throws
    the FOREIGN KEY failure and leaves the store as it was: INSERT OR
    IGNORE does not ignore the foreign key. *)
Theorem addTag_unknown_note_rejected (s : Store) (noteId : Z) (tag : string) :
  consistent s ->
  (forall r, In r (notes s) -> Row.id r <> noteId) ->
  NotesDB.addTag noteId tag s
  = (Throw (SqliteError SQLITE_CONSTRAINT_FOREIGNKEY), s).
Proof.
  intros Hs Hnone. unfold NotesDB.addTag.
  assert (Edup : existsb
                   (fun t => String.eqb (Tag.name t) tag
                             && (Tag.noteId t =? noteId)%Z) (tags s)
                 = false).
  { destruct (existsb _ (tags s)) eqn:E; [|reflexivity].
    apply existsb_exists in E as [t [Hin Ht]].
    apply andb_true_iff in Ht as [_ Hid]. apply Z.eqb_eq in Hid.
    destruct (tags_reference_notes s Hs t Hin) as [r [Hr Hrid]].
    exfalso. apply (Hnone r Hr). congruence. }
  assert (Eparent : existsb (fun r => (Row.id r =? noteId)%Z) (notes s)
                    = false).
  { destruct (existsb _ (notes s)) eqn:E; [|reflexivity].
    apply existsb_exists in E as [r [Hr Hid]]. apply Z.eqb_eq in Hid.
    now apply Hnone in Hr. }
  now rewrite Edup, Eparent.
Qed.

Lemma addTag_unknown_note_rejected_witness :
  NotesDB.addTag 7 "a" two_notes
  = (Throw (SqliteError SQLITE_CONSTRAINT_FOREIGNKEY), two_notes).
Proof.
  apply (addTag_unknown_note_rejected two_notes 7 "a").
  - apply Invariant.reachable_consistent.
    unfold two_notes. repeat apply reachable_call. apply reachable_init.
  - simpl. intros r [<- | [<- | []]]; simpl; lia.
Defined.

(** X3. For a note found by its title, the [addTags] handler returns
    whatever the list (empty, with repeats, with tags the note already
    has); afterwards the tag names of the note are the earlier ones and
    the listed ones, the tag names of every other note and the rows of
    [notes] are as before. *)
Theorem addTags_adds_listed (s : Store) (args : TagsArgs.t) (note : Note.t) :
  result (NotesDB.getNoteByTitle (TagsArgs.title args)) s
  = Return (Some note) ->
  exists s' : Store,
    NotesHandlers.addTags args s
    = (Return (TagsAdded (TagsArgs.title args) (TagsArgs.tags args)), s')
    /\ notes s' = notes s
    /\ forall (nid : Z) (name : string),
         In name (tag_names nid s') <->
         In name (tag_names nid s)
         \/ (nid = Note.id note /\ In name (TagsArgs.tags args)).
Proof.
  intros Hfound. apply LookupFacts.found_row in Hfound as [Hfind Hnote].
  assert (Hin : In (Note.row note) (notes s))
    by (apply find_some in Hfind; tauto).
  destruct (TagFacts.add_each_run (Note.id note) (TagsArgs.tags args) s)
    as (s' & Hrun & Hnotes & Hnames).
  { now exists (Note.row note). }
  exists s'. split; [|now split].
  unfold NotesHandlers.addTags. unfold bind at 1.
  rewrite (LookupFacts.note_titled_found _ _ _ Hfind), <- Hnote.
  unfold bind. now rewrite Hrun.
Qed.

Lemma addTags_adds_listed_witness :
  exists s' : Store,
    NotesHandlers.addTags
      {| TagsArgs.title := "Groceries";
         TagsArgs.tags := ["x"; "a"; "x"]%string |} two_notes
    = (Return (TagsAdded "Groceries" ["x"; "a"; "x"]%string), s')
    /\ notes s' = notes two_notes
    /\ forall (nid : Z) (name : string),
         In name (tag_names nid s') <->
         In name (tag_names nid two_notes)
         \/ (nid = 1%Z /\ In name ["x"; "a"; "x"]%string).
Proof.
  apply (addTags_adds_listed two_notes
           {| TagsArgs.title := "Groceries";
              TagsArgs.tags := ["x"; "a"; "x"]%string |}
           (attach_tags two_notes groceries_row)).
  reflexivity.
Defined.

(** X4. For a note found by its title, the [addTags] handler followed by
    the [removeTags] handler with the same arguments both return, and
    leave the note with exactly its earlier tag names that are not
    listed: the listed names are gone even where the note had them
    before. The tag names of other notes are as before. *)
Theorem addTags_then_removeTags (s : Store) (args : TagsArgs.t)
  (note : Note.t) :
  result (NotesDB.getNoteByTitle (TagsArgs.title args)) s
  = Return (Some note) ->
  exists s1 s2 : Store,
    NotesHandlers.addTags args s
    = (Return (TagsAdded (TagsArgs.title args) (TagsArgs.tags args)), s1)
    /\ NotesHandlers.removeTags args s1
       = (Return (TagsRemoved (TagsArgs.title args) (TagsArgs.tags args)), s2)
    /\ notes s2 = notes s
    /\ forall (nid : Z) (name : string),
         In name (tag_names nid s2) <->
         In name (tag_names nid s)
         /\ ~ (nid = Note.id note /\ In name (TagsArgs.tags args)).
Proof.
  intros Hfound. apply LookupFacts.found_row in Hfound as [Hfind Hnote].
  assert (Hin : In (Note.row note) (notes s))
    by (apply find_some in Hfind; tauto).
  destruct (TagFacts.add_each_run (Note.id note) (TagsArgs.tags args) s)
    as (s1 & Hrun & Hnotes & Hnames).
  { now exists (Note.row note). }
  exists s1.
  exists (store_after
            (NotesDB.removeTags (Note.id note) (TagsArgs.tags args)) s1).
  split; [|split; [|split]].
  - unfold NotesHandlers.addTags. unfold bind at 1.
    rewrite (LookupFacts.note_titled_found _ _ _ Hfind), <- Hnote.
    unfold bind. now rewrite Hrun.
  - unfold NotesHandlers.removeTags. unfold bind at 1.
    rewrite <- Hnotes in Hfind.
    rewrite (LookupFacts.note_titled_found _ _ _ Hfind).
    reflexivity.
  - cbn. assumption.
  - intros nid name. rewrite TagFacts.removeTags_names, Hnames. tauto.
Qed.

Lemma addTags_then_removeTags_witness :
  exists s1 s2 : Store,
    NotesHandlers.addTags
      {| TagsArgs.title := "Groceries"; TagsArgs.tags := ["x"; "a"]%string |}
      two_notes
    = (Return (TagsAdded "Groceries" ["x"; "a"]%string), s1)
    /\ NotesHandlers.removeTags
         {| TagsArgs.title := "Groceries";
            TagsArgs.tags := ["x"; "a"]%string |} s1
       = (Return (TagsRemoved "Groceries" ["x"; "a"]%string), s2)
    /\ notes s2 = notes two_notes
    /\ forall (nid : Z) (name : string),
         In name (tag_names nid s2) <->
         In name (tag_names nid two_notes)
         /\ ~ (nid = 1%Z /\ In name ["x"; "a"]%string).
Proof.
  apply (addTags_then_removeTags two_notes
           {| TagsArgs.title := "Groceries";
              TagsArgs.tags := ["x"; "a"]%string |}
           (attach_tags two_notes groceries_row)).
  reflexivity.
Defined.

(** X5. When no note has the title, [getNoteByTitle] returns nothing
    without throwing, and the handlers [getNote], [updateNote],
    [deleteNote], [addTags] and [removeTags] each throw the InvalidParams
    error "no note with this title" and leave the store as it was. *)
Theorem unknown_title_rejected (s : Store) (title : string) :
  (forall r, In r (notes s) -> Row.title r <> title) ->
  NotesDB.getNoteByTitle title s = (Return None, s)
  /\ NotesHandlers.getNote title s
     = (Throw (McpError InvalidParams (NoteNotFound title)), s)
  /\ NotesHandlers.deleteNote title s
     = (Throw (McpError InvalidParams (NoteNotFound title)), s)
  /\ (forall (now : string) (args : UpdateNoteArgs.t),
        UpdateNoteArgs.title args = title ->
        NotesHandlers.updateNote now args s
        = (Throw (McpError InvalidParams (NoteNotFound title)), s))
  /\ (forall args : TagsArgs.t,
        TagsArgs.title args = title ->
        NotesHandlers.addTags args s
        = (Throw (McpError InvalidParams (NoteNotFound title)), s)
        /\ NotesHandlers.removeTags args s
           = (Throw (McpError InvalidParams (NoteNotFound title)), s)).
Proof.
  intros Hnone. apply LookupFacts.no_title_no_row in Hnone.
  pose proof (LookupFacts.note_titled_missing title s Hnone) as Hmiss.
  split; [now rewrite LookupFacts.getNoteByTitle_run, Hnone|].
  split; [unfold NotesHandlers.getNote, bind; now rewrite Hmiss|].
  split; [unfold NotesHandlers.deleteNote, bind; now rewrite Hmiss|].
  split.
  - intros now args <-. unfold NotesHandlers.updateNote, bind.
    now rewrite Hmiss.
  - intros args <-. split.
    + unfold NotesHandlers.addTags, bind. now rewrite Hmiss.
    + unfold NotesHandlers.removeTags, bind. now rewrite Hmiss.
Qed.

Lemma unknown_title_rejected_witness :
  NotesDB.getNoteByTitle "Chores" two_notes = (Return None, two_notes)
  /\ NotesHandlers.getNote "Chores" two_notes
     = (Throw (McpError InvalidParams (NoteNotFound "Chores")), two_notes)
  /\ NotesHandlers.deleteNote "Chores" two_notes
     = (Throw (McpError InvalidParams (NoteNotFound "Chores")), two_notes)
  /\ (forall (now : string) (args : UpdateNoteArgs.t),
        UpdateNoteArgs.title args = "Chores"%string ->
        NotesHandlers.updateNote now args two_notes
        = (Throw (McpError InvalidParams (NoteNotFound "Chores")), two_notes))
  /\ (forall args : TagsArgs.t,
        TagsArgs.title args = "Chores"%string ->
        NotesHandlers.addTags args two_notes
        = (Throw (McpError InvalidParams (NoteNotFound "Chores")), two_notes)
        /\ NotesHandlers.removeTags args two_notes
           = (Throw (McpError InvalidParams (NoteNotFound "Chores")),
              two_notes)).
Proof.
  apply (unknown_title_rejected two_notes "Chores").
  simpl. intros r [<- | [<- | []]]; simpl; discriminate.
Defined.

Lemma no_id_no_hit (id : Z) (l : list Row.t) :
  (forall r, In r l -> Row.id r <> id) ->
  filter (fun r => (Row.id r =? id)%Z) l = [].
Proof.
  intros H. destruct (filter _ l) as [|r l'] eqn:E; [reflexivity|].
  assert (Hin : In r (r :: l')) by now left.
  rewrite <- E in Hin. apply filter_In in Hin as [Hin Hid].
  apply Z.eqb_eq in Hid. now apply H in Hin.
Qed.

(** X6. For an id that no note has, [deleteNote] returns false, and
    [updateNote] returns false for every payload that names a column;
    both leave the store as it was. A payload that names no column (only
    [id] or [tags], or nothing) makes [updateNote] throw, the SET clause
    being empty, whether the id exists or not. *)
Theorem unknown_id_changes_nothing (s : Store) (id : Z) :
  (forall r, In r (notes s) -> Row.id r <> id) ->
  NotesDB.deleteNote id s = (Return false, s)
  /\ (forall updates : Partial.t,
        NotesDB.has_sets updates = true ->
        NotesDB.updateNote id updates s = (Return false, s))
  /\ (forall (any : Z) (i : option Z) (t : option (list string)),
        NotesDB.updateNote any
          {| Partial.id := i; Partial.title := None;
             Partial.content := None; Partial.folder := None;
             Partial.tags := t; Partial.priority := None;
             Partial.dueDate := None; Partial.createdAt := None;
             Partial.updatedAt := None |} s
        = (Throw (SqliteError SQLITE_ERROR), s)).
Proof.
  intros Hnone. apply no_id_no_hit in Hnone.
  split; [|split].
  - unfold NotesDB.deleteNote. cbv zeta. now rewrite Hnone.
  - intros updates Hsets. unfold NotesDB.updateNote. cbv zeta.
    now rewrite Hsets, Hnone.
  - reflexivity.
Qed.

Lemma unknown_id_changes_nothing_witness :
  NotesDB.deleteNote 7 two_notes = (Return false, two_notes)
  /\ (forall updates : Partial.t,
        NotesDB.has_sets updates = true ->
        NotesDB.updateNote 7 updates two_notes = (Return false, two_notes))
  /\ (forall (any : Z) (i : option Z) (t : option (list string)),
        NotesDB.updateNote any
          {| Partial.id := i; Partial.title := None;
             Partial.content := None; Partial.folder := None;
             Partial.tags := t; Partial.priority := None;
             Partial.dueDate := None; Partial.createdAt := None;
             Partial.updatedAt := None |} two_notes
        = (Throw (SqliteError SQLITE_ERROR), two_notes)).
Proof.
  apply (unknown_id_changes_nothing two_notes 7).
  simpl. intros r [<- | [<- | []]]; simpl; lia.
Defined.

Lemma find_by_title (l : list Row.t) (r : Row.t) :
  NoDup (map Row.title l) -> In r l ->
  find (fun x => String.eqb (Row.title x) (Row.title r)) l = Some r.
Proof.
  induction l as [|a l IH]; simpl; intros Hnd Hin; [contradiction|].
  inversion Hnd as [|? ? Hnotin Hnd']; subst.
  destruct Hin as [-> | Hin].
  - now rewrite String.eqb_refl.
  - destruct (String.eqb (Row.title a) (Row.title r)) eqn:E; [|auto].
    apply String.eqb_eq in E. exfalso. apply Hnotin. rewrite E.
    now apply in_map.
Qed.

(** X7. For a note found by its title in a consistent store, the
    [deleteNote] handler returns; afterwards neither the title nor the id
    finds a note, every other note is still found by its title, a second
    [deleteNote] of the title is rejected as unknown, and the
    AUTOINCREMENT counter is as before, so the id is not given out
    again. *)
Theorem deleteNote_handler_removes (s : Store) (title : string)
  (note : Note.t) :
  consistent s ->
  result (NotesDB.getNoteByTitle title) s = Return (Some note) ->
  exists s' : Store,
    NotesHandlers.deleteNote title s = (Return (NoteDeleted title), s')
    /\ NotesDB.getNoteByTitle title s' = (Return None, s')
    /\ NotesDB.getNote (Note.id note) s' = (Return None, s')
    /\ (forall r, In r (notes s) -> Row.title r <> title ->
                  result (NotesDB.getNoteByTitle (Row.title r)) s'
                  = Return (Some (attach_tags s' r)))
    /\ NotesHandlers.deleteNote title s'
       = (Throw (McpError InvalidParams (NoteNotFound title)), s')
    /\ notes_seq s' = notes_seq s
    /\ (Note.id note <= notes_seq s')%Z.
Proof.
  intros Hs Hfound. apply LookupFacts.found_row in Hfound as [Hfind Hnote].
  destruct note as [r tg]. cbn [Note.row] in *. unfold Note.id. cbn [Note.row].
  pose proof (find_some _ _ Hfind) as [Hin Htitle].
  apply String.eqb_eq in Htitle.
  pose proof (Invariant.deleteNote_consistent (Row.id r) s Hs) as Hs'.
  revert Hs'. unfold store_after.
  assert (Hrun : NotesDB.deleteNote (Row.id r) s
                 = (Return true,
                    {| notes := filter (fun x => negb (Row.id x =? Row.id r)%Z)
                                  (notes s);
                       notes_seq := notes_seq s;
                       folders := folders s;
                       folders_seq := folders_seq s;
                       tags := filter
                                 (fun t => negb (Tag.noteId t =? Row.id r)%Z)
                                 (tags s);
                       tags_seq := tags_seq s |})).
  { unfold NotesDB.deleteNote. cbv zeta.
    now rewrite (filter_hit_nonempty (notes s) r Hin). }
  rewrite Hrun. cbn [snd]. intros Hs'.
  set (s' := {| notes := filter _ (notes s); notes_seq := notes_seq s;
                folders := folders s; folders_seq := folders_seq s;
                tags := filter _ (tags s); tags_seq := tags_seq s |}) in *.
  assert (Hgone : forall x, In x (notes s') -> Row.title x <> title).
  { intros x Hx Hxt. apply filter_In in Hx as [Hx Hne].
    assert (x = r).
    { apply (NoDup_map_injective_on Row.title (notes s)
               (note_titles_unique s Hs)); auto. congruence. }
    subst x. rewrite Z.eqb_refl in Hne. discriminate. }
  assert (Hnone : find (fun x => String.eqb (Row.title x) title) (notes s')
                  = None) by now apply LookupFacts.no_title_no_row.
  exists s'. split; [|split; [|split; [|split; [|split; [|split]]]]].
  - unfold NotesHandlers.deleteNote. unfold bind at 1.
    rewrite (LookupFacts.note_titled_found _ _ _ Hfind).
    unfold bind.
    change (Note.id (attach_tags s r)) with (Row.id r).
    rewrite Hrun. reflexivity.
  - now rewrite LookupFacts.getNoteByTitle_run, Hnone.
  - rewrite LookupFacts.getNote_run.
    destruct (find (fun x => (Row.id x =? Row.id r)%Z) (notes s'))
      as [x|] eqn:E; [|reflexivity].
    apply find_some in E as [Hx Hid].
    apply filter_In in Hx as [_ Hne]. rewrite Hid in Hne. discriminate.
  - intros x Hx Hxt. unfold result.
    rewrite LookupFacts.getNoteByTitle_run. cbn [fst].
    rewrite find_by_title; [reflexivity | apply (note_titles_unique s' Hs')|].
    apply filter_In. split; [assumption|].
    apply negb_true_iff, Z.eqb_neq. intros Hid.
    apply Hxt. rewrite <- Htitle. f_equal.
    apply (NoDup_map_injective_on Row.id (notes s)
             (note_ids_unique s Hs)); auto.
  - unfold NotesHandlers.deleteNote, bind.
    now rewrite (LookupFacts.note_titled_missing title s' Hnone).
  - reflexivity.
  - cbn [notes_seq s']. apply (note_ids_issued s Hs r Hin).
Qed.

Lemma deleteNote_handler_removes_witness :
  exists s' : Store,
    NotesHandlers.deleteNote "Groceries" two_notes
    = (Return (NoteDeleted "Groceries"), s')
    /\ NotesDB.getNoteByTitle "Groceries" s' = (Return None, s')
    /\ NotesDB.getNote (Note.id (attach_tags two_notes groceries_row)) s'
       = (Return None, s')
    /\ (forall r, In r (notes two_notes) ->
                  Row.title r <> "Groceries"%string ->
                  result (NotesDB.getNoteByTitle (Row.title r)) s'
                  = Return (Some (attach_tags s' r)))
    /\ NotesHandlers.deleteNote "Groceries" s'
       = (Throw (McpError InvalidParams (NoteNotFound "Groceries")), s')
    /\ notes_seq s' = notes_seq two_notes
    /\ (Note.id (attach_tags two_notes groceries_row) <= notes_seq s')%Z.
Proof.
  apply (deleteNote_handler_removes two_notes "Groceries"
           (attach_tags two_notes groceries_row)).
  - apply Invariant.reachable_consistent.
    unfold two_notes. repeat apply reachable_call. apply reachable_init.
  - reflexivity.
Defined.

(** X8. [updateNote] with a payload whose title is the title of another
    note throws the UNIQUE constraint failure and leaves the store as it
    was, whatever else the payload holds. *)
Theorem updateNote_title_taken_rejected (s : Store) (r other : Row.t)
  (updates : Partial.t) :
  In r (notes s) ->
  In other (notes s) ->
  Row.id other <> Row.id r ->
  Partial.title updates = Some (Row.title other) ->
  NotesDB.updateNote (Row.id r) updates s
  = (Throw (SqliteError SQLITE_CONSTRAINT_UNIQUE), s).
Proof.
  intros Hr Hother Hne Ht. unfold NotesDB.updateNote. cbv zeta.
  assert (Hsets : NotesDB.has_sets updates = true)
    by (unfold NotesDB.has_sets; now rewrite Ht).
  rewrite Hsets, (filter_hit_nonempty (notes s) r Hr), Ht. cbn [negb].
  assert (Htaken : existsb
                     (fun x => negb (Row.id x =? Row.id r)%Z
                               && String.eqb (Row.title x) (Row.title other))
                     (notes s) = true).
  { apply existsb_exists. exists other. split; [assumption|].
    apply Z.eqb_neq in Hne. now rewrite Hne, String.eqb_refl. }
  now rewrite Htaken, orb_true_r.
Qed.

Lemma updateNote_title_taken_rejected_witness :
  NotesDB.updateNote 1
    {| Partial.id := None; Partial.title := Some "Groceries2"%string;
       Partial.content := None; Partial.folder := None;
       Partial.tags := None; Partial.priority := None;
       Partial.dueDate := None; Partial.createdAt := None;
       Partial.updatedAt := None |} two_notes
  = (Throw (SqliteError SQLITE_CONSTRAINT_UNIQUE), two_notes).
Proof.
  apply (updateNote_title_taken_rejected two_notes groceries_row
           {| Row.id := 2;
              Row.title := "Groceries2";
              Row.content := "buy milk too";
              Row.folder := Some "work"%string;
              Row.priority := None;
              Row.dueDate := Some "2024-02-01"%string;
              Row.createdAt := "2024-01-02T10:00:00.000Z";
              Row.updatedAt := "2024-01-02T10:00:00.000Z" |}).
  - left. reflexivity.
  - right. left. reflexivity.
  - simpl. lia.
  - reflexivity.
Defined.

Lemma one_hit (l : list Row.t) (r : Row.t) :
  NoDup (map Row.id l) -> In r l ->
  filter (fun x => (Row.id x =? Row.id r)%Z) l = [r].
Proof.
  induction l as [|a l IH]; simpl; intros Hnd Hin; [contradiction|].
  inversion Hnd as [|? ? Hnotin Hnd']; subst.
  destruct Hin as [-> | Hin].
  - rewrite Z.eqb_refl. f_equal. apply no_id_no_hit.
    intros x Hx Hid. apply Hnotin. rewrite <- Hid. now apply in_map.
  - destruct (Row.id a =? Row.id r)%Z eqn:E; [|auto].
    apply Z.eqb_eq in E. exfalso. apply Hnotin. rewrite E.
    now apply in_map.
Qed.

(** X9. In a consistent store, [updateNote] with a payload whose title no
    other note has returns true; the note is then found under the new
    title, with the id and the tag names it had, and, when the title
    changed, no note is found under the old one. *)
Theorem updateNote_renames (s : Store) (r : Row.t) (updates : Partial.t)
  (title : string) :
  consistent s ->
  In r (notes s) ->
  Partial.title updates = Some title ->
  (forall x, In x (notes s) -> Row.id x <> Row.id r -> Row.title x <> title) ->
  exists (s' : Store) (note' : Note.t),
    NotesDB.updateNote (Row.id r) updates s = (Return true, s')
    /\ NotesDB.getNoteByTitle title s' = (Return (Some note'), s')
    /\ Note.id note' = Row.id r
    /\ Note.title note' = title
    /\ Note.tags note' = Some (tag_names (Row.id r) s)
    /\ (title <> Row.title r ->
        NotesDB.getNoteByTitle (Row.title r) s' = (Return None, s')).
Proof.
  intros Hs Hr Ht Hfree.
  pose proof (Invariant.updateNote_consistent (Row.id r) updates s Hs) as Hs'.
  revert Hs'. unfold store_after, NotesDB.updateNote. cbv zeta.
  assert (Hsets : NotesDB.has_sets updates = true)
    by (unfold NotesDB.has_sets; now rewrite Ht).
  rewrite Hsets, (one_hit (notes s) r (note_ids_unique s Hs) Hr), Ht.
  cbn [negb List.length Nat.eqb Nat.ltb Nat.leb orb].
  assert (Hnot : existsb
                   (fun x => negb (Row.id x =? Row.id r)%Z
                             && String.eqb (Row.title x) title)
                   (notes s) = false).
  { destruct (existsb _ (notes s)) eqn:E; [|reflexivity].
    apply existsb_exists in E as [x [Hx Hb]].
    apply andb_true_iff in Hb as [Hid Hxt].
    apply negb_true_iff, Z.eqb_neq in Hid. apply String.eqb_eq in Hxt.
    now apply (Hfree x Hx Hid) in Hxt. }
  rewrite Hnot. cbn [snd].
  set (upd := fun x : Row.t =>
                if (Row.id x =? Row.id r)%Z
                then NotesDB.set_columns updates x else x).
  intros Hs'.
  assert (Hupd : upd r = NotesDB.set_columns updates r)
    by (unfold upd; now rewrite Z.eqb_refl).
  assert (Hnew : Row.title (upd r) = title)
    by (rewrite Hupd; cbn; now rewrite Ht).
  eexists. exists (attach_tags s (upd r)).
  split; [reflexivity|]. split; [|split; [|split; [|split]]].
  - rewrite LookupFacts.getNoteByTitle_run. cbn [notes].
    rewrite <- Hnew.
    rewrite find_by_title;
      [reflexivity | apply (note_titles_unique _ Hs') | now apply in_map].
  - rewrite Hupd. reflexivity.
  - exact Hnew.
  - rewrite Hupd. reflexivity.
  - intros Hchanged. rewrite LookupFacts.getNoteByTitle_run. cbn [notes].
    rewrite LookupFacts.no_title_no_row; [reflexivity|].
    intros x' Hx' Hold. apply in_map_iff in Hx' as [x [<- Hx]].
    unfold upd in Hold. destruct (Row.id x =? Row.id r)%Z eqn:E.
    + apply Z.eqb_eq in E.
      assert (x = r)
        by (apply (NoDup_map_injective_on Row.id (notes s)
                     (note_ids_unique s Hs)); auto).
      subst x. cbn in Hold. rewrite Ht in Hold. cbn in Hold.
      contradiction.
    + apply Z.eqb_neq in E. apply E. f_equal.
      apply (NoDup_map_injective_on Row.title (notes s)
               (note_titles_unique s Hs)); auto.
Qed.

Lemma updateNote_renames_witness :
  exists (s' : Store) (note' : Note.t),
    NotesDB.updateNote (Row.id groceries_row)
      {| Partial.id := Some 9%Z; Partial.title := Some "Shopping"%string;
         Partial.content := None; Partial.folder := None;
         Partial.tags := None; Partial.priority := None;
         Partial.dueDate := None; Partial.createdAt := None;
         Partial.updatedAt := None |} two_notes = (Return true, s')
    /\ NotesDB.getNoteByTitle "Shopping" s' = (Return (Some note'), s')
    /\ Note.id note' = Row.id groceries_row
    /\ Note.title note' = "Shopping"%string
    /\ Note.tags note' = Some (tag_names (Row.id groceries_row) two_notes)
    /\ ("Shopping"%string <> Row.title groceries_row ->
        NotesDB.getNoteByTitle (Row.title groceries_row) s'
        = (Return None, s')).
Proof.
  apply (updateNote_renames two_notes groceries_row
           {| Partial.id := Some 9%Z; Partial.title := Some "Shopping"%string;
              Partial.content := None; Partial.folder := None;
              Partial.tags := None; Partial.priority := None;
              Partial.dueDate := None; Partial.createdAt := None;
              Partial.updatedAt := None |} "Shopping").
  - apply Invariant.reachable_consistent.
    unfold two_notes. repeat apply reachable_call. apply reachable_init.
  - left. reflexivity.
  - reflexivity.
  - simpl. intros x [<- | [<- | []]] Hid; simpl in *;
      [now elim Hid | discriminate].
Defined.

(** * Folders *)

Lemma folder_name_exists (name : string) (l : list Folder.t) :
  (exists f, In f l /\ Folder.name f = name) ->
  existsb (fun f => String.eqb (Folder.name f) name) l = true.
Proof.
  intros [f [Hin Hn]]. apply existsb_exists. exists f. split; auto.
  now apply String.eqb_eq.
Qed.

Lemma folder_name_fresh (name : string) (l : list Folder.t) :
  (forall f, In f l -> Folder.name f <> name) ->
  existsb (fun f => String.eqb (Folder.name f) name) l = false.
Proof.
  intros H. destruct (existsb _ l) eqn:E; [|reflexivity].
  apply existsb_exists in E as [f [Hin Hn]]. apply String.eqb_eq in Hn.
  now apply H in Hin.
Qed.

(** X10. In a store that holds a folder with the name, [createFolder]
    throws the UNIQUE constraint failure and the handler turns it into the
    InvalidParams rejection "the folder name already exists"; the store is
    left as it was. *)
Theorem createFolder_existing_name_rejected (s : Store) (now name : string) :
  (exists f, In f (folders s) /\ Folder.name f = name) ->
  NotesDB.createFolder now name s
  = (Throw (SqliteError SQLITE_CONSTRAINT_UNIQUE), s)
  /\ NotesHandlers.createFolder now name s
     = (Throw (McpError InvalidParams FolderExists), s).
Proof.
  intros H. apply folder_name_exists in H.
  unfold NotesHandlers.createFolder, try_catch, bind, NotesDB.createFolder.
  rewrite H. split; reflexivity.
Qed.

Lemma createFolder_existing_name_rejected_witness :
  NotesDB.createFolder "2024-03-02T08:00:00.000Z" "home"
    (call (CreateFolder "2024-03-01T08:00:00.000Z" "home") two_notes)
  = (Throw (SqliteError SQLITE_CONSTRAINT_UNIQUE),
     call (CreateFolder "2024-03-01T08:00:00.000Z" "home") two_notes)
  /\ NotesHandlers.createFolder "2024-03-02T08:00:00.000Z" "home"
       (call (CreateFolder "2024-03-01T08:00:00.000Z" "home") two_notes)
     = (Throw (McpError InvalidParams FolderExists),
        call (CreateFolder "2024-03-01T08:00:00.000Z" "home") two_notes).
Proof.
  apply (createFolder_existing_name_rejected
           (call (CreateFolder "2024-03-01T08:00:00.000Z" "home") two_notes)
           "2024-03-02T08:00:00.000Z" "home").
  eexists. split; [left; reflexivity | reflexivity].
Defined.

Lemma createFolder_keeps_constraints (now name : string) (s : Store) :
  folders_consistent s ->
  folders_consistent (store_after (NotesDB.createFolder now name) s).
Proof.
  intros (Hnames & Hids & Hseq).
  unfold store_after, NotesDB.createFolder.
  destruct (existsb _ (folders s)) eqn:E; cbn [snd]; [now repeat split|].
  unfold folders_consistent.
  cbn [folders folders_seq]. rewrite !map_app. cbn [map Folder.name Folder.id].
  split; [|split].
  - apply Invariant.NoDup_snoc; auto. intros Hin.
    apply in_map_iff in Hin as [f' [Hn Hf']].
    apply (Invariant.existsb_false _ _ E) in Hf'.
    apply String.eqb_neq in Hf'. contradiction.
  - apply Invariant.NoDup_snoc; auto. intros Hin.
    apply in_map_iff in Hin as [f' [Hn Hf']]. apply Hseq in Hf'. lia.
  - intros f' Hf'. apply in_app_or in Hf' as [Hf' | [<- | []]].
    + apply Hseq in Hf'. lia.
    + cbn. lia.
Qed.

(** X11. In a store whose folders satisfy their constraints and hold no
    folder with the name, [createFolder] returns a folder with that name,
    the stamp [now] and an id greater than every folder id in the table;
    the folder is appended, no row of [notes] or [tags] changes, the
    handler answers "folder created", and creating the name again is
    rejected. *)
Theorem createFolder_fresh_name (s : Store) (now name : string) :
  folders_consistent s ->
  (forall f, In f (folders s) -> Folder.name f <> name) ->
  exists (f : Folder.t) (s' : Store),
    NotesDB.createFolder now name s = (Return f, s')
    /\ NotesHandlers.createFolder now name s = (Return (FolderCreated name), s')
    /\ Folder.name f = name
    /\ Folder.createdAt f = now
    /\ (forall f', In f' (folders s) -> (Folder.id f' < Folder.id f)%Z)
    /\ folders s' = folders s ++ [f]
    /\ notes s' = notes s
    /\ tags s' = tags s
    /\ folders_consistent s'
    /\ forall later : string,
         NotesDB.createFolder later name s'
         = (Throw (SqliteError SQLITE_CONSTRAINT_UNIQUE), s').
Proof.
  intros Hs Hfresh.
  pose proof (createFolder_keeps_constraints now name s Hs) as Hs'.
  destruct Hs as (Hnames & Hids & Hseq).
  pose proof (folder_name_fresh name (folders s) Hfresh) as E.
  revert Hs'.
  unfold NotesHandlers.createFolder, try_catch, bind, store_after,
    NotesDB.createFolder.
  rewrite E. cbn [snd]. intros Hs'. eexists. eexists.
  split; [reflexivity|]. split; [reflexivity|].
  split; [reflexivity|]. split; [reflexivity|].
  split; [intros f' Hf'; apply Hseq in Hf'; cbn; lia|].
  split; [reflexivity|]. split; [reflexivity|]. split; [reflexivity|].
  split; [exact Hs'|].
  intros later. cbn [folders].
  rewrite folder_name_exists; [reflexivity|].
  eexists. split; [apply in_or_app; right; left; reflexivity|].
  reflexivity.
Qed.

Lemma createFolder_fresh_name_witness :
  exists (f : Folder.t) (s' : Store),
    NotesDB.createFolder "2024-03-01T08:00:00.000Z" "home" two_notes
    = (Return f, s')
    /\ NotesHandlers.createFolder "2024-03-01T08:00:00.000Z" "home" two_notes
       = (Return (FolderCreated "home"), s')
    /\ Folder.name f = "home"%string
    /\ Folder.createdAt f = "2024-03-01T08:00:00.000Z"%string
    /\ (forall f', In f' (folders two_notes) -> (Folder.id f' < Folder.id f)%Z)
    /\ folders s' = folders two_notes ++ [f]
    /\ notes s' = notes two_notes
    /\ tags s' = tags two_notes
    /\ folders_consistent s'
    /\ forall later : string,
         NotesDB.createFolder later "home" s'
         = (Throw (SqliteError SQLITE_CONSTRAINT_UNIQUE), s').
Proof.
  apply (createFolder_fresh_name two_notes "2024-03-01T08:00:00.000Z" "home").
  - unfold folders_consistent. simpl.
    split; [constructor | split; [constructor | intros f []]].
  - simpl. intros f [].
Defined.

Lemma other_calls_keep_folders (c : Call) (s : Store) :
  match c with
  | CreateFolder _ _ => True
  | _ => folders (call c s) = folders s
         /\ folders_seq (call c s) = folders_seq s
  end.
Proof.
  destruct c; cbn [call]; unfold store_after; try exact I.
  - unfold NotesDB.createNote. destruct (existsb _ _); now split.
  - unfold NotesDB.updateNote. cbv zeta.
    destruct (negb _); [now split|].
    destruct (_ =? 0)%nat; [now split|].
    match goal with
    | |- context [if ?taken then (Throw _, _) else _] => destruct taken
    end; now split.
  - unfold NotesDB.deleteNote. cbv zeta.
    destruct (_ =? 0)%nat; now split.
  - unfold NotesDB.addTag.
    destruct (existsb _ (tags s)); [now split|].
    destruct (existsb _ (notes s)); now split.
  - now split.
Qed.

(** X12. In every store reachable from a new database, folder names are
    pairwise distinct, folder ids are pairwise distinct, and no folder id
    exceeds the AUTOINCREMENT counter of [folders]: only [createFolder]
    writes the table, and no method deletes or renames a folder. *)
Theorem reachable_folders_consistent (s : Store) :
  reachable s -> folders_consistent s.
Proof.
  induction 1 as [|c s Hreach IH].
  - unfold folders_consistent. simpl.
    split; [constructor | split; [constructor | intros f []]].
  - pose proof (other_calls_keep_folders c s) as Hkeep.
    destruct c;
      try (now apply createFolder_keeps_constraints);
      destruct Hkeep as [Hf Hq]; unfold folders_consistent;
      rewrite Hf, Hq; exact IH.
Qed.

Lemma reachable_folders_consistent_witness :
  folders_consistent
    (call (CreateFolder "2024-03-02T08:00:00.000Z" "home")
       (call (CreateFolder "2024-03-01T08:00:00.000Z" "home") two_notes)).
Proof.
  apply reachable_folders_consistent.
  unfold two_notes. repeat apply reachable_call. apply reachable_init.
Defined.

(** * LIKE with the pattern [%query%] *)

Module LikeFacts.

Import Sql.



(** [_] stands for one character, of one byte or of several: the pattern
    with one [_] matches the three-character text, the pattern with one
    [_] for each byte of the middle character does not. *)
Example like_one_character :
  Sql.like "买_奶" "买牛奶" = true
  /\ Sql.like "买___奶" "买牛奶" = false
  /\ Sql.like "b_y" "BUY" = true.
Proof. repeat split; reflexivity. Qed.










End LikeFacts.

(** * Which notes a search selects *)

Module MatchFacts.

Import Sql.








Lemma set_page_statement (limit offset : option Z)
  (options : SearchOptions.t) :
  join_tags (NotesDB.search_statement (set_page limit offset options))
  = join_tags (NotesDB.search_statement options)
  /\ conditions (NotesDB.search_statement (set_page limit offset options))
     = conditions (NotesDB.search_statement options).
Proof. split; reflexivity. Qed.

End MatchFacts.

(** X14. A search for a non-empty query in the empty list of fields
    throws: the WHERE clause it builds is "()", which SQLite does not
    prepare. The handler passes the failure on; the store is left as it
    was. *)
Theorem searchNotes_no_fields_throws (s : Store) (options : SearchOptions.t) :
  SearchOptions.query options <> EmptyString ->
  SearchOptions.searchIn options = Some [] ->
  NotesDB.searchNotes options s = (Throw (SqliteError SQLITE_ERROR), s)
  /\ NotesHandlers.searchNotes options s
     = (Throw (SqliteError SQLITE_ERROR), s).
Proof.
  intros Hq Hin.
  assert (H : NotesDB.searchNotes options s
              = (Throw (SqliteError SQLITE_ERROR), s)).
  { rewrite DbFacts.searchNotes_run. cbv zeta.
    unfold Sql.prepares, NotesDB.search_statement. cbn [Sql.conditions].
    destruct (SearchOptions.query options) as [|c q]; [congruence|].
    rewrite Hin. reflexivity. }
  split; [exact H|].
  unfold NotesHandlers.searchNotes, bind. now rewrite H.
Qed.

Lemma searchNotes_no_fields_throws_witness :
  NotesDB.searchNotes
    {| SearchOptions.query := "milk";
       SearchOptions.searchIn := Some [];
       SearchOptions.folder := None;
       SearchOptions.priority := None;
       SearchOptions.hasDueDate := None;
       SearchOptions.sortBy := None;
       SearchOptions.sortOrder := None;
       SearchOptions.limit := None;
       SearchOptions.offset := None |} two_notes
  = (Throw (SqliteError SQLITE_ERROR), two_notes)
  /\ NotesHandlers.searchNotes
       {| SearchOptions.query := "milk";
          SearchOptions.searchIn := Some [];
          SearchOptions.folder := None;
          SearchOptions.priority := None;
          SearchOptions.hasDueDate := None;
          SearchOptions.sortBy := None;
          SearchOptions.sortOrder := None;
          SearchOptions.limit := None;
          SearchOptions.offset := None |} two_notes
     = (Throw (SqliteError SQLITE_ERROR), two_notes).
Proof.
  apply searchNotes_no_fields_throws; [discriminate | reflexivity].
Defined.















(** * Note ids *)

Lemma call_counter_grows (c : Call) (s : Store) :
  (notes_seq s <= notes_seq (call c s))%Z.
Proof.
  destruct c; cbn [call]; unfold store_after.
  - unfold NotesDB.createNote. destruct (existsb _ _); cbn; lia.
  - unfold NotesDB.updateNote. cbv zeta.
    destruct (negb _); [cbn; lia|].
    destruct (_ =? 0)%nat; [cbn; lia|].
    match goal with
    | |- context [if ?taken then (Throw _, _) else _] => destruct taken
    end; cbn; lia.
  - unfold NotesDB.deleteNote. cbv zeta.
    destruct (_ =? 0)%nat; cbn; lia.
  - unfold NotesDB.addTag.
    destruct (existsb _ (tags s)); [cbn; lia|].
    destruct (existsb _ (notes s)); cbn; lia.
  - cbn. lia.
  - unfold NotesDB.createFolder. destruct (existsb _ _); cbn; lia.
Qed.

Lemma calls_counter_grows (cs : list Call) (s : Store) :
  (notes_seq s <= notes_seq (calls cs s))%Z.
Proof.
  revert s. induction cs as [|c cs IH]; intros s; [cbn; lia|].
  cbn [calls fold_left]. fold (calls cs (call c s)).
  pose proof (call_counter_grows c s). pose proof (IH (call c s)). lia.
Qed.

(** X20. Note ids are never given out twice: when [createNote] returns
    after any sequence of calls made on a consistent store, the id of the
    new note is greater than the id of every note that store held, notes
    deleted in between included. *)
Theorem createNote_id_never_reused (s : Store) (cs : list Call)
  (note : NewNote.t) (created : Note.t) (s' : Store) :
  consistent s ->
  NotesDB.createNote note (calls cs s) = (Return created, s') ->
  Forall (fun r => (Row.id r < Note.id created)%Z) (notes s).
Proof.
  intros Hs Hrun. apply Forall_forall. intros r Hr.
  pose proof (note_ids_issued s Hs r Hr) as Hle.
  pose proof (calls_counter_grows cs s) as Hgrow.
  unfold NotesDB.createNote in Hrun.
  destruct (existsb _ (notes (calls cs s))); [discriminate|].
  inversion Hrun; subst. cbn. lia.
Qed.

Lemma createNote_id_never_reused_witness :
  Forall
    (fun r =>
       (Row.id r
        < Note.id
            {| Note.row :=
                 {| Row.id := 3;
                    Row.title := "Groceries2";
                    Row.content := "buy milk too";
                    Row.folder := Some "work"%string;
                    Row.priority := None;
                    Row.dueDate := Some "2024-02-01"%string;
                    Row.createdAt := "2024-01-02T10:00:00.000Z";
                    Row.updatedAt := "2024-01-02T10:00:00.000Z" |};
               Note.tags := None |})%Z)
    (notes two_notes).
Proof.
  apply (createNote_id_never_reused two_notes [DeleteNote 2] groceries2 _
           (snd (NotesDB.createNote groceries2
                   (calls [DeleteNote 2] two_notes)))).
  - apply Invariant.reachable_consistent.
    unfold two_notes. repeat apply reachable_call. apply reachable_init.
  - reflexivity.
Defined.

(** X21. In every store reachable from a new database, two notes with the
    same title are the same note, two notes with the same id are the same
    note, two tag rows with the same name and note id are the same row,
    and no note id exceeds the AUTOINCREMENT counter. *)
Theorem reachable_keys_unique (s : Store) :
  reachable s ->
  (forall r1 r2, In r1 (notes s) -> In r2 (notes s) ->
                 Row.title r1 = Row.title r2 -> r1 = r2)
  /\ (forall r1 r2, In r1 (notes s) -> In r2 (notes s) ->
                    Row.id r1 = Row.id r2 -> r1 = r2)
  /\ (forall t1 t2, In t1 (tags s) -> In t2 (tags s) ->
                    Tag.name t1 = Tag.name t2 ->
                    Tag.noteId t1 = Tag.noteId t2 -> t1 = t2)
  /\ (forall r, In r (notes s) -> (Row.id r <= notes_seq s)%Z).
Proof.
  intros Hreach.
  destruct (Invariant.reachable_consistent s Hreach)
    as [Hid Htitle Hseq Hpair _].
  split; [|split; [|split]].
  - apply (NoDup_map_injective_on Row.title (notes s) Htitle).
  - apply (NoDup_map_injective_on Row.id (notes s) Hid).
  - intros t1 t2 H1 H2 Hn Hi.
    apply (NoDup_map_injective_on
             (fun t => (Tag.name t, Tag.noteId t)) (tags s) Hpair);
      auto. now rewrite Hn, Hi.
  - exact Hseq.
Qed.

Lemma reachable_keys_unique_witness :
  (forall r1 r2, In r1 (notes two_notes) -> In r2 (notes two_notes) ->
                 Row.title r1 = Row.title r2 -> r1 = r2)
  /\ (forall r1 r2, In r1 (notes two_notes) -> In r2 (notes two_notes) ->
                    Row.id r1 = Row.id r2 -> r1 = r2)
  /\ (forall t1 t2, In t1 (tags two_notes) -> In t2 (tags two_notes) ->
                    Tag.name t1 = Tag.name t2 ->
                    Tag.noteId t1 = Tag.noteId t2 -> t1 = t2)
  /\ (forall r, In r (notes two_notes) -> (Row.id r <= notes_seq two_notes)%Z).
Proof.
  apply (reachable_keys_unique two_notes).
  unfold two_notes. repeat apply reachable_call. apply reachable_init.
Defined.

(** X22. In a consistent store every stored note is found both by its
    title and by its id, the two lookups return the same note with the
    same tag names, and the [getNote] handler answers with that note. *)
Theorem stored_note_lookups_agree (s : Store) (r : Row.t) :
  consistent s ->
  In r (notes s) ->
  NotesDB.getNoteByTitle (Row.title r) s
  = (Return (Some (attach_tags s r)), s)
  /\ NotesDB.getNote (Row.id r) s = (Return (Some (attach_tags s r)), s)
  /\ NotesHandlers.getNote (Row.title r) s
     = (Return (NoteJson (attach_tags s r)), s)
  /\ Note.tags (attach_tags s r) = Some (tag_names (Row.id r) s).
Proof.
  intros Hs Hr.
  pose proof (find_by_title (notes s) r (note_titles_unique s Hs) Hr) as Ht.
  pose proof (find_by_id (notes s) r (note_ids_unique s Hs) Hr) as Hi.
  split; [now rewrite LookupFacts.getNoteByTitle_run, Ht|].
  split; [now rewrite LookupFacts.getNote_run, Hi|].
  split; [|reflexivity].
  unfold NotesHandlers.getNote, bind.
  now rewrite (LookupFacts.note_titled_found _ _ _ Ht).
Qed.

Lemma stored_note_lookups_agree_witness :
  NotesDB.getNoteByTitle (Row.title groceries_row) two_notes
  = (Return (Some (attach_tags two_notes groceries_row)), two_notes)
  /\ NotesDB.getNote (Row.id groceries_row) two_notes
     = (Return (Some (attach_tags two_notes groceries_row)), two_notes)
  /\ NotesHandlers.getNote (Row.title groceries_row) two_notes
     = (Return (NoteJson (attach_tags two_notes groceries_row)), two_notes)
  /\ Note.tags (attach_tags two_notes groceries_row)
     = Some (tag_names (Row.id groceries_row) two_notes).
Proof.
  apply (stored_note_lookups_agree two_notes groceries_row).
  - apply Invariant.reachable_consistent.
    unfold two_notes. repeat apply reachable_call. apply reachable_init.
  - left. reflexivity.
Defined.

(** X23. In a consistent store without a note of that title, the
    [createNote] handler answers "note created"; the [getNote] handler
    then answers with a note that has the content, folder, priority and
    dueDate of the arguments, both [createdAt] and [updatedAt] equal to
    the stamp of the call, the next id of the counter, and no tags.
    Creating the note writes neither [folders] (the folder named need not
    exist) nor [tags]. *)
Theorem createNote_handler_stamps (s : Store) (now : string)
  (args : CreateNoteArgs.t) :
  consistent s ->
  (forall r, In r (notes s) -> Row.title r <> CreateNoteArgs.title args) ->
  exists (s' : Store) (n : Note.t),
    NotesHandlers.createNote now args s
    = (Return (NoteCreated (CreateNoteArgs.title args)), s')
    /\ NotesHandlers.getNote (CreateNoteArgs.title args) s'
       = (Return (NoteJson n), s')
    /\ Note.id n = (notes_seq s + 1)%Z
    /\ Note.title n = CreateNoteArgs.title args
    /\ Note.content n = CreateNoteArgs.content args
    /\ Note.folder n = CreateNoteArgs.folder args
    /\ Note.priority n = CreateNoteArgs.priority args
    /\ Note.dueDate n = CreateNoteArgs.dueDate args
    /\ Note.createdAt n = now
    /\ Note.updatedAt n = now
    /\ Note.tags n = Some []
    /\ folders s' = folders s
    /\ tags s' = tags s.
Proof.
  intros [Hid Htitle Hseq Hpair Hfk] Hfresh.
  assert (E : existsb
                (fun r => String.eqb (Row.title r) (CreateNoteArgs.title args))
                (notes s) = false).
  { destruct (existsb _ (notes s)) eqn:E; [|reflexivity].
    apply existsb_exists in E as [r [Hin Hr]].
    apply String.eqb_eq in Hr. now apply Hfresh in Hin. }
  assert (Hnotags : tag_rows_of (notes_seq s + 1) s = []).
  { unfold tag_rows_of.
    destruct (filter _ (tags s)) as [|t l] eqn:Ef; [reflexivity|].
    assert (Hin : In t (t :: l)) by now left.
    rewrite <- Ef in Hin. apply filter_In in Hin as [Hin Ht].
    apply Z.eqb_eq in Ht.
    destruct (Hfk t Hin) as [r [Hr Hrid]]. apply Hseq in Hr. lia. }
  unfold NotesHandlers.createNote, try_catch, bind, NotesDB.createNote.
  cbn [NewNote.title]. rewrite E.
  eexists. eexists. split; [reflexivity|]. split.
  - unfold NotesHandlers.getNote, bind.
    rewrite (LookupFacts.note_titled_found _ _
               {| Row.id := notes_seq s + 1;
                  Row.title := CreateNoteArgs.title args;
                  Row.content := CreateNoteArgs.content args;
                  Row.folder := CreateNoteArgs.folder args;
                  Row.priority := CreateNoteArgs.priority args;
                  Row.dueDate := CreateNoteArgs.dueDate args;
                  Row.createdAt := now;
                  Row.updatedAt := now |}).
    + reflexivity.
    + cbn [notes]. apply find_snoc_fresh.
      * intros x Hx. apply String.eqb_neq. now apply Hfresh.
      * apply String.eqb_refl.
  - cbn. unfold tag_rows_of in Hnotags. rewrite Hnotags.
    repeat split.
Qed.

Lemma createNote_handler_stamps_witness :
  exists (s' : Store) (n : Note.t),
    NotesHandlers.createNote "2024-03-01T08:00:00.000Z"
      {| CreateNoteArgs.title := "Chores";
         CreateNoteArgs.content := "sweep";
         CreateNoteArgs.folder := Some "attic"%string;
         CreateNoteArgs.priority := Some low;
         CreateNoteArgs.dueDate := None |} two_notes
    = (Return (NoteCreated "Chores"), s')
    /\ NotesHandlers.getNote "Chores" s' = (Return (NoteJson n), s')
    /\ Note.id n = (notes_seq two_notes + 1)%Z
    /\ Note.title n = "Chores"%string
    /\ Note.content n = "sweep"%string
    /\ Note.folder n = Some "attic"%string
    /\ Note.priority n = Some low
    /\ Note.dueDate n = None
    /\ Note.createdAt n = "2024-03-01T08:00:00.000Z"%string
    /\ Note.updatedAt n = "2024-03-01T08:00:00.000Z"%string
    /\ Note.tags n = Some []
    /\ folders s' = folders two_notes
    /\ tags s' = tags two_notes.
Proof.
  apply (createNote_handler_stamps two_notes "2024-03-01T08:00:00.000Z"
           {| CreateNoteArgs.title := "Chores";
              CreateNoteArgs.content := "sweep";
              CreateNoteArgs.folder := Some "attic"%string;
              CreateNoteArgs.priority := Some low;
              CreateNoteArgs.dueDate := None |}).
  - apply Invariant.reachable_consistent.
    unfold two_notes. repeat apply reachable_call. apply reachable_init.
  - simpl. intros r [<- | [<- | []]]; simpl; discriminate.
Defined.





(** X26. A limit or an offset outside the 64-bit integer range is an
    error, not a window: for a request that prepares, with a limit other
    than 0, when the limit or the offset is at least 2^63 or below -2^63,
    [searchNotes] throws SQLite's datatype mismatch and leaves the store
    as it is, and so does the handler, which does not catch it. *)
Theorem searchNotes_out_of_range_throws (s : Store)
  (options : SearchOptions.t) (limit : Z) (offset : option Z) :
  requestable options ->
  limit <> 0%Z ->
  ((9223372036854775808 <= limit)%Z \/ (limit < -9223372036854775808)%Z
   \/ exists k : Z,
        offset = Some k
        /\ ((9223372036854775808 <= k)%Z \/ (k < -9223372036854775808)%Z)) ->
  NotesDB.searchNotes (set_page (Some limit) offset options) s
  = (Throw (SqliteError SQLITE_MISMATCH), s)
  /\ NotesHandlers.searchNotes (set_page (Some limit) offset options) s
     = (Throw (SqliteError SQLITE_MISMATCH), s).
Proof.
  intros Hreq Hne Hout.
  assert (Hrun : NotesDB.searchNotes (set_page (Some limit) offset options) s
                 = (Throw (SqliteError SQLITE_MISMATCH), s)).
  { rewrite DbFacts.searchNotes_run. cbv zeta.
    rewrite DbFacts.search_statement_prepares by exact Hreq.
    assert (Hb : Sql.binds
                   (Sql.paging
                      (NotesDB.search_statement
                         (set_page (Some limit) offset options))) = false).
    { unfold NotesDB.search_statement.
      cbn [Sql.paging set_page SearchOptions.limit SearchOptions.offset].
      assert (Ht : truthy_number (Some limit) = Some limit)
        by (destruct limit; [congruence | reflexivity | reflexivity]).
      rewrite Ht, DbFacts.binds_limit.
      apply andb_false_iff.
      destruct Hout as [Hbig | [Hsmall | (k & -> & Hk)]].
      - left. unfold Sql.converts_to_integer. apply andb_false_iff.
        right. apply Z.ltb_ge. lia.
      - left. unfold Sql.converts_to_integer. apply andb_false_iff.
        left. apply Z.ltb_ge. lia.
      - right.
        assert (Hk0 : truthy_number (Some k) = Some k)
          by (destruct k; [lia | reflexivity | reflexivity]).
        rewrite Hk0. unfold Sql.converts_to_integer. apply andb_false_iff.
        destruct Hk; [right | left]; apply Z.ltb_ge; lia. }
    now rewrite Hb. }
  split; [exact Hrun|].
  unfold NotesHandlers.searchNotes, bind. now rewrite Hrun.
Qed.

Lemma searchNotes_out_of_range_throws_witness :
  NotesDB.searchNotes
    (set_page (Some 10%Z) (Some 9223372036854775808%Z) (search_for "milk"))
    two_notes
  = (Throw (SqliteError SQLITE_MISMATCH), two_notes)
  /\ NotesHandlers.searchNotes
       (set_page (Some 10%Z) (Some 9223372036854775808%Z) (search_for "milk"))
       two_notes
     = (Throw (SqliteError SQLITE_MISMATCH), two_notes).
Proof.
  apply (searchNotes_out_of_range_throws two_notes (search_for "milk") 10
           (Some 9223372036854775808%Z)).
  - right. discriminate.
  - lia.
  - right. right. exists 9223372036854775808%Z. split; [reflexivity|].
    left. lia.
Defined.

